(** * monitor_intake_forms.py: a shallow embedding and its properties

    The program polls a MongoDB collection for new intake forms and mails
    each one.  Python values are a small inductive type, documents are
    finite maps from field names to values, and the effects of the program
    (log lines, SMTP calls, sleeps, thread starts, queries) are recorded
    as a trace of events.  Exceptions are explicit: a computation ends in
    [Ok v] or in [Raise e], and the trace and the local variables written
    before the exception survive it, as they do in Python. *)

From Stdlib Require Import ZArith List Ascii String.
From Stdlib.Strings Require Import Byte.
From stdpp Require Import base gmap strings list pretty.

Set Warnings "-register-all".
Open Scope Z_scope.

(** ** Python values *)

Inductive PyVal : Type :=
| PyNone
| PyBool (b : bool)
| PyInt (z : Z)
| PyStr (s : string)
| PyBytes (bs : list byte)
| PyObjectId (hex : string)
| PyDict (d : gmap string PyVal).

(** Truth value testing, as [if v:] does it. *)
Definition truthy (v : PyVal) : bool :=
  match v with
  | PyNone => false
  | PyBool b => b
  | PyInt z => negb (Z.eqb z 0)
  | PyStr s => negb (String.eqb s "")
  | PyBytes bs => match bs with [] => false | _ => true end
  | PyObjectId _ => true
  | PyDict d => negb (bool_decide (d = ∅))
  end.

Inductive PyExn : Type :=
| KeyError (key : string)
| TypeError
| AttributeError
| ValueError
| SMTPException
| OSError
| OverflowError
| PyMongoError.

Inductive Result (A : Type) : Type :=
| Ok (a : A)
| Raise (e : PyExn).
Arguments Ok {A} a.
Arguments Raise {A} e.

(** [len(v)]: sized values have a length, the others raise [TypeError]. *)
Definition py_len (v : PyVal) : Result Z :=
  match v with
  | PyStr s => Ok (Z.of_nat (String.length s))
  | PyBytes bs => Ok (Z.of_nat (List.length bs))
  | PyDict d => Ok (Z.of_nat (size d))
  | _ => Raise TypeError
  end.

(** [v.get(key)]: only a mapping has [get]; a missing key gives [None]. *)
Definition py_get (v : PyVal) (key : string) : Result PyVal :=
  match v with
  | PyDict d => Ok (default PyNone (d !! key))
  | _ => Raise AttributeError
  end.

(** A document of the collection. *)
Abbreviation Form := (gmap string PyVal).

(** [form[key]] raises [KeyError] on a missing key. *)
Definition subscript (form : Form) (key : string) : Result PyVal :=
  match form !! key with
  | Some v => Ok v
  | None => Raise (KeyError key)
  end.

(** ** Messages and events *)

(** The mapping built by [process_form]: a dict in insertion order. *)
Abbreviation CustomerInfo := (list (string * PyVal)).

(** The parts attached to a message: [MIMEText(body, subtype)], and
    [MIMEBase(main_type, sub_type)] with its payload, which
    [encoders.encode_base64] re-encodes for the transfer, and the filename
    of its Content-Disposition header. *)
Inductive MimePart : Type :=
| TextPart (body : string) (subtype : string)
| BasePart (main_type sub_type : string) (payload : PyVal)
    (disposition_filename : PyVal).

Record Email : Type := mkEmail {
  msg_from : string;
  msg_to : string;
  msg_subject : string;
  msg_parts : list MimePart
}.

(** [msg.attach(part)] *)
Definition attach (msg : Email) (part : MimePart) : Email :=
  mkEmail (msg_from msg) (msg_to msg) (msg_subject msg)
          (msg_parts msg ++ [part]).

Inductive Level : Type := INFO | WARNING | ERROR.

Inductive LogMsg : Type :=
| MsgMonitoring
| MsgProcessing (form_name form_id : string)
| MsgNoFileUploaded
| MsgInvalidFile (file_name : PyVal)
| MsgSizeLimit (file_name : PyVal)
| MsgUnsupportedType (mime_type : option string)
| MsgEmailSent
| MsgErrorIn (context : string) (error : PyExn).

Inductive SmtpCall : Type :=
| Connect (host : string) (port : Z)
| Starttls
| Login (user password : string)
| SendMessage (msg : Email)
| Close.

Inductive Query : Type :=
| QAll
| QGt (last : PyVal).

Inductive Event : Type :=
| Log (lvl : Level) (msg : LogMsg)
| Smtp (call : SmtpCall)
| Sleep (secs : Z)
| ThreadStart (text_data : CustomerInfo) (file_data file_name : PyVal)
| Find (q : Query).

(** ** Computations: a trace and a result or an exception *)

Definition M (A : Type) : Type := list Event * Result A.

#[export] Instance M_ret : MRet M := λ A a, ([], Ok a).
#[export] Instance M_bind : MBind M := λ A B f c,
  match c with
  | (tr, Ok a) => let '(tr', r) := f a in (tr ++ tr', r)
  | (tr, Raise e) => (tr, Raise e)
  end.

Definition emit (ev : Event) : M unit := ([ev], Ok tt).
Definition raise {A} (e : PyExn) : M A := ([], Raise e).
Definition lift {A} (r : Result A) : M A := ([], r).
Definition logging (lvl : Level) (msg : LogMsg) : M unit := emit (Log lvl msg).

(** [try: c except Exception as e: h e] *)
Definition try_except {A} (c : M A) (h : PyExn → M A) : M A :=
  match c with
  | (tr, Ok a) => (tr, Ok a)
  | (tr, Raise e) => let '(tr', r) := h e in (tr ++ tr', r)
  end.

(** [with ...:] runs the exit of the context manager on both ways out of
    the block; an exception of the exit replaces what the block gave. *)
Definition with_block {A} (block : M A) (exit : M unit) : M A :=
  match block, exit with
  | (tr, r), (tr', Ok _) => (tr ++ tr', r)
  | (tr, _), (tr', Raise e) => (tr ++ tr', Raise e)
  end.

(** [time.sleep(secs)] for an integer.  The event is the call, which is
    made in every case: the number of nanoseconds has to fit a signed
    64-bit integer, or the call raises [OverflowError]; a negative number
    raises [ValueError]; otherwise the call returns after the sleep. *)
Definition SLEEP_MAX : Z := 9223372036.

Definition time_sleep (secs : Z) : M unit :=
  emit (Sleep secs);;
  if (secs <? - SLEEP_MAX) || (SLEEP_MAX <? secs) then raise OverflowError
  else if secs <? 0 then raise ValueError
  else mret tt.

(** [encoders.encode_base64] on a part whose payload was set to [payload]:
    text and bytes are encoded, anything else raises [TypeError]. *)
Definition encode_base64 (payload : PyVal) : Result unit :=
  match payload with
  | PyStr _ | PyBytes _ => Ok tt
  | _ => Raise TypeError
  end.

Definition trace {A} (c : M A) : list Event := c.1.
Definition outcome {A} (c : M A) : Result A := c.2.

(** ** Constants *)

Definition SMTP_PORT : Z := 465.
Definition ALLOWED_MIME_TYPES : list string :=
  ["application/pdf"; "image/jpeg"; "image/png"; "image/gif"]%string.
Definition MAX_FILE_SIZE : Z := 5 * 1024 * 1024.

Definition customer_data_keys : list string :=
  ["name"; "email"; "phone"; "communicationMethod"; "contactTime";
   "projectType"; "projectDescription"; "uploadedFile"; "createdAt"]%string.

Definition NA : PyVal := PyStr "N/A".

(** Utility for centralized exception handling: logs, then the bare
    [raise] re-raises the exception being handled. *)
Definition handle_exception (context : string) (error : PyExn) : M unit :=
  logging ERROR (MsgErrorIn context error);; raise error.

(** ** The program

    What the program takes from its environment is a parameter: the
    configuration read from the process environment, [str()] on values,
    [mimetypes.guess_type], the behaviour of the mail server for a
    message, and what the collection answers to the n-th query. *)

Inductive SmtpStage : Type := AtConnect | AtStarttls | AtLogin | AtSendMessage.

(** What the mail server does with the session for a message: it accepts
    everything, it makes one of the calls fail, or it accepts every call
    and answers the QUIT of the end of the session with a code other than
    221. *)
Inductive SmtpOutcome : Type :=
| Accepted
| FailsAt (stage : SmtpStage) (e : PyExn)
| QuitRefused.

Definition stage_eqb (a b : SmtpStage) : bool :=
  match a, b with
  | AtConnect, AtConnect | AtStarttls, AtStarttls
  | AtLogin, AtLogin | AtSendMessage, AtSendMessage => true
  | _, _ => false
  end.

Definition newline : string := String "010"%char EmptyString.

(** [s.split("/", 1)] unpacked into two names: the text before the first
    slash and the text after it; without a slash the unpacking raises
    [ValueError]. *)
Fixpoint split_slash (s : string) : option (string * string) :=
  match s with
  | EmptyString => None
  | String c rest =>
      if Ascii.eqb c "/"%char then Some (EmptyString, rest)
      else match split_slash rest with
           | Some (a, b) => Some (String c a, b)
           | None => None
           end
  end.

Definition unpack_type (s : string) : Result (string * string) :=
  match split_slash s with
  | Some p => Ok p
  | None => Raise ValueError
  end.

(** [mime_type or "application/octet-stream"]: the fallback is taken for
    [None] and for the empty string. *)
Definition mime_or_default (mime_type : option string) : string :=
  match mime_type with
  | Some t => if String.eqb t "" then "application/octet-stream" else t
  | None => "application/octet-stream"
  end.

(** [mime_type not in ALLOWED_MIME_TYPES]; [None] is in no list of strings. *)
Definition mime_allowed (mime_type : option string) : bool :=
  match mime_type with
  | Some t => bool_decide (t ∈ ALLOWED_MIME_TYPES)
  | None => false
  end.

Record LoopState : Type := mkLoopState {
  seen_ids : gset string;
  last_checked_id : PyVal
}.

Inductive LoopOutcome : Type :=
| StillRunning
| Terminated (e : PyExn).

Section Program.

Variable SMTP_SERVER : string.
Variable EMAIL_PASSWORD : string.
Variable EMAIL_ADDRESS : string.
Variable RECIPIENT_EMAILS : list string.
Variable POLLING_INTERVAL : Z.

Variable py_str : PyVal → string.
Variable guess_type : PyVal → Result (option string).
Variable smtp : Email → SmtpOutcome.
Variable collection : nat → Query → Result (list Form).

(** One call on the SMTP connection: the call is made, and fails if the
    server fails the session at this stage. *)
Definition smtp_call (msg : Email) (stage : SmtpStage) (call : SmtpCall)
  : M unit :=
  emit (Smtp call);;
  match smtp msg with
  | FailsAt s e => if stage_eqb s stage then raise e else mret tt
  | _ => mret tt
  end.

(** The exit of the [with] block: [SMTP.__exit__] sends QUIT, closes the
    connection in a [finally], and raises [SMTPResponseException], an
    [SMTPException], when the reply to QUIT was not 221. *)
Definition smtp_exit (msg : Email) : M unit :=
  emit (Smtp Close);;
  match smtp msg with
  | QuitRefused => raise SMTPException
  | _ => mret tt
  end.

(** [with smtplib.SMTP(...) as server: ...] *)
Definition deliver (msg : Email) : M unit :=
  smtp_call msg AtConnect (Connect SMTP_SERVER SMTP_PORT);;
  with_block
    (smtp_call msg AtStarttls Starttls;;
     smtp_call msg AtLogin (Login EMAIL_ADDRESS EMAIL_PASSWORD);;
     smtp_call msg AtSendMessage (SendMessage msg);;
     logging INFO MsgEmailSent)
    (smtp_exit msg).

Definition body_line (kv : string * PyVal) : string :=
  (kv.1 +:+ ": " +:+ py_str kv.2)%string.

Definition email_body (text_data : CustomerInfo) : string :=
  String.concat newline
    (map body_line
       (filter (λ kv, negb (String.eqb kv.1 "uploadedFile")) text_data)).

Definition base_message (text_data : CustomerInfo) : Email :=
  attach
    (mkEmail EMAIL_ADDRESS (String.concat ", " RECIPIENT_EMAILS)
             "New Customer Submission" [])
    (TextPart (email_body text_data) "plain").

Definition file_part (main_type sub_type : string)
    (file_data file_name : PyVal) : MimePart :=
  BasePart main_type sub_type file_data file_name.

(** The body of the [try] of [send_email]. *)
Definition send_email_try (text_data : CustomerInfo)
    (file_data file_name : PyVal) : M unit :=
  let msg := base_message text_data in
  if truthy file_data && truthy file_name then
    n ← lift (py_len file_data);
    if n >? MAX_FILE_SIZE then
      logging WARNING (MsgSizeLimit file_name);;
      deliver msg
    else
      mime_type ← lift (guess_type file_name);
      ts ← lift (unpack_type (mime_or_default mime_type));
      if negb (mime_allowed mime_type) then
        logging WARNING (MsgUnsupportedType mime_type)
      else
        lift (encode_base64 file_data);;
        deliver (attach msg (file_part ts.1 ts.2 file_data file_name))
  else
    deliver msg.

(** The two [except] clauses of [send_email]. *)
Definition send_email_except (e : PyExn) : M unit :=
  match e with
  | SMTPException => handle_exception "SMTP error occurred" e
  | _ => handle_exception "Error sending email" e
  end.

Definition send_email (text_data : CustomerInfo)
    (file_data file_name : PyVal) : M unit :=
  try_except (send_email_try text_data file_data file_name) send_email_except.

(** [Thread(target=send_email, args=args, kwargs=kwargs).start()]: the
    caller only starts the thread. *)
Definition sent_email_async (text_data : CustomerInfo)
    (file_data file_name : PyVal) : M unit :=
  emit (ThreadStart text_data file_data file_name).

Definition fetch_new_forms (poll : nat) (last_check_id : PyVal)
  : M (list Form) :=
  let query := if truthy last_check_id then QGt last_check_id else QAll in
  emit (Find query);;
  lift (collection poll query).

Definition customer_info_of (form : Form) : CustomerInfo :=
  map (λ key, (key, default NA (form !! key))) customer_data_keys.

Definition process_form (form : Form) : M (CustomerInfo * PyVal * PyVal) :=
  let customer_info := customer_info_of form in
  match form !! "uploadedFile" with
  | Some uploaded_file =>
      if truthy uploaded_file then
        file_data ← lift (py_get uploaded_file "data");
        file_name ← lift (py_get uploaded_file "filename");
        if truthy file_data && truthy file_name then
          mret (customer_info, file_data, file_name)
        else
          logging WARNING (MsgInvalidFile file_name);;
          mret (customer_info, PyNone, file_name)
      else
        logging INFO MsgNoFileUploaded;;
        mret (customer_info, PyNone, PyNone)
  | None => mret (customer_info, PyNone, PyNone)
  end.

(** *** The watch loop

    [seen_ids] and [last_checked_id] are local variables of
    [monitor_new_submission]; what was assigned before an exception stays
    assigned. *)

Definition Loop (A : Type) : Type := LoopState → LoopState * M A.

#[export] Instance Loop_ret : MRet Loop := λ A a st, (st, mret a).
#[export] Instance Loop_bind : MBind Loop := λ A B f c st,
  match c st with
  | (st1, (tr, Ok a)) =>
      let '(st2, (tr', r)) := f a st1 in (st2, (tr ++ tr', r))
  | (st1, (tr, Raise e)) => (st1, (tr, Raise e))
  end.

Definition liftM {A} (c : M A) : Loop A := λ st, (st, c).
Definition get_seen_ids : Loop (gset string) := λ st, (st, mret (seen_ids st)).
Definition get_last_checked_id : Loop PyVal :=
  λ st, (st, mret (last_checked_id st)).
Definition set_last_checked_id (v : PyVal) : Loop unit :=
  λ st, (mkLoopState (seen_ids st) v, mret tt).
Definition seen_ids_add (form_id : string) : Loop unit :=
  λ st, (mkLoopState ({[form_id]} ∪ seen_ids st) (last_checked_id st), mret tt).

Definition try_except_loop {A} (c : Loop A) (h : PyExn → Loop A) : Loop A :=
  λ st,
  match c st with
  | (st1, (tr, Ok a)) => (st1, (tr, Ok a))
  | (st1, (tr, Raise e)) =>
      let '(st2, (tr', r)) := h e st1 in (st2, (tr ++ tr', r))
  end.

(** The body of [for form in new_forms]. *)
Definition loop_body (form : Form) : Loop unit :=
  name ← liftM (lift (subscript form "name"));
  let form_name := py_str name in
  id ← liftM (lift (subscript form "_id"));
  let form_id := py_str id in
  set_last_checked_id id;;
  seen ← get_seen_ids;
  if bool_decide (form_id ∈ seen) then
    mret tt
  else
    seen_ids_add form_id;;
    liftM (logging INFO (MsgProcessing form_name form_id));;
    r ← liftM (process_form form);
    let '(customer_info, file_attachment, file_name) := r in
    liftM (send_email customer_info file_attachment file_name).

(** The last two statements of the loop body, on their own. *)
Definition transform_and_send (form : Form) : M unit :=
  r ← process_form form;
  let '(customer_info, file_attachment, file_name) := r in
  send_email customer_info file_attachment file_name.

Fixpoint for_forms (new_forms : list Form) : Loop unit :=
  match new_forms with
  | [] => mret tt
  | form :: rest => loop_body form;; for_forms rest
  end.

(** The body of the [try] of the watch loop, at the [poll]-th query. *)
Definition poll_cycle (poll : nat) : Loop unit :=
  last ← get_last_checked_id;
  new_forms ← liftM (fetch_new_forms poll last);
  for_forms new_forms;;
  liftM (time_sleep POLLING_INTERVAL).

(** One turn of [while True]. *)
Definition iteration (poll : nat) : Loop unit :=
  try_except_loop (poll_cycle poll)
    (λ e, liftM (handle_exception "Error monitoring submission:" e);;
          liftM (time_sleep 30)).

(** [while True], cut after [fuel] turns; an exception leaves the loop. *)
Fixpoint while_true (fuel : nat) (poll : nat) : Loop unit :=
  match fuel with
  | O => mret tt
  | S fuel' => iteration poll;; while_true fuel' (S poll)
  end.

Definition initial_state : LoopState := mkLoopState ∅ PyNone.

(** [monitor_new_submission], observed for [fuel] turns of its loop: the
    trace, the local variables, and whether the function is still looping
    or was left by an exception. *)
Definition monitor_new_submission (fuel : nat)
  : list Event * LoopState * LoopOutcome :=
  match (liftM (logging INFO MsgMonitoring);; while_true fuel 0) initial_state with
  | (st, (tr, Ok _)) => (tr, st, StillRunning)
  | (st, (tr, Raise e)) => (tr, st, Terminated e)
  end.

End Program.

(** ** Reading traces and results *)

(** Lookup in an insertion-ordered dict. *)
Fixpoint dict_get (key : string) (d : CustomerInfo) : option PyVal :=
  match d with
  | [] => None
  | (k, v) :: rest => if String.eqb k key then Some v else dict_get key rest
  end.

Definition is_smtp (ev : Event) : bool :=
  match ev with Smtp _ => true | _ => false end.

Definition is_thread_start (ev : Event) : bool :=
  match ev with ThreadStart _ _ _ => true | _ => false end.

(** Events other than the "Processing new submission" line and the start
    of a thread. *)
Definition quiet (ev : Event) : bool :=
  match ev with
  | Log _ (MsgProcessing _ _) => false
  | ThreadStart _ _ _ => false
  | _ => true
  end.

(** The identifiers announced by "Processing new submission" lines, the
    line the loop writes just before it transforms and sends a record. *)
Fixpoint processed_ids (tr : list Event) : list string :=
  match tr with
  | [] => []
  | Log _ (MsgProcessing _ form_id) :: rest => form_id :: processed_ids rest
  | _ :: rest => processed_ids rest
  end.

(** What [process_form] takes for the payload and the name of the file. *)
Definition file_data_of (d : gmap string PyVal) : PyVal :=
  default PyNone (d !! "data").
Definition file_name_of (d : gmap string PyVal) : PyVal :=
  default PyNone (d !! "filename").

(** Every event of a computation satisfies [P]. *)
Definition events {A} (P : Event → bool) (c : M A) : Prop :=
  forallb P c.1 = true.
Definition loop_events {A} (P : Event → bool) (c : Loop A) : Prop :=
  ∀ st, forallb P (c st).2.1 = true.

(** The dedup set along a piece of the run from [st] to [st'] with trace
    [tr]: it only grows, no identifier is announced twice, and every
    identifier announced was not in the set before and is in it after. *)
Definition dedup_step (st : LoopState) (tr : list Event) (st' : LoopState)
  : Prop :=
  seen_ids st ⊆ seen_ids st'
  ∧ NoDup (processed_ids tr)
  ∧ ∀ i, i ∈ processed_ids tr → (i ∉ seen_ids st) ∧ (i ∈ seen_ids st').

Definition dedup_ok {A} (c : Loop A) : Prop :=
  ∀ st, dedup_step st (c st).2.1 (c st).1.

(** The three components of an observation of [monitor_new_submission]. *)
Definition run_trace (r : list Event * LoopState * LoopOutcome) : list Event :=
  r.1.1.
Definition run_state (r : list Event * LoopState * LoopOutcome) : LoopState :=
  r.1.2.
Definition run_outcome (r : list Event * LoopState * LoopOutcome) : LoopOutcome :=
  r.2.

(** ** Further readings of traces *)

Definition is_send_message (ev : Event) : bool :=
  match ev with Smtp (SendMessage _) => true | _ => false end.
Definition is_connect (ev : Event) : bool :=
  match ev with Smtp (Connect _ _) => true | _ => false end.
Definition is_close (ev : Event) : bool :=
  match ev with Smtp Close => true | _ => false end.

(** The number of events of a trace that satisfy [P]. *)
Definition count_events (P : Event → bool) (tr : list Event) : nat :=
  length (List.filter P tr).

Definition is_warning_or_error (ev : Event) : bool :=
  match ev with
  | Log WARNING _ | Log ERROR _ => true
  | _ => false
  end.

(** Log lines other than the announcement of a record, and calls to the
    mail server: what the transformer and the notifier write. *)
Definition line_or_smtp (ev : Event) : bool :=
  match ev with
  | Log _ (MsgProcessing _ _) => false
  | Log _ _ | Smtp _ => true
  | _ => false
  end.

(** A sleep, if the event is one, is of [interval] seconds. *)
Definition is_polling_sleep (interval : Z) (ev : Event) : bool :=
  match ev with
  | Sleep secs => Z.eqb secs interval
  | _ => true
  end.

(** The context under which [send_email] logs an exception. *)
Definition except_context (e : PyExn) : string :=
  match e with
  | SMTPException => "SMTP error occurred"
  | _ => "Error sending email"
  end.

(** The query that [fetch_new_forms] builds for a mark. *)
Definition query_after (last : PyVal) : Query :=
  if truthy last then QGt last else QAll.

(** The dedup set after a piece of the run is the set before it and the
    identifiers announced in it. *)
Definition seen_exact {A} (c : Loop A) : Prop :=
  ∀ st, seen_ids (c st).1
        = list_to_set (processed_ids (c st).2.1) ∪ seen_ids st.

Section Sendable.

Variable SMTP_SERVER : string.
Variable EMAIL_PASSWORD : string.
Variable EMAIL_ADDRESS : string.
Variable RECIPIENT_EMAILS : list string.
Variable py_str : PyVal → string.
Variable guess_type : PyVal → Result (option string).
Variable smtp : Email → SmtpOutcome.

(** The payload and the name pass the tests of [send_email], and the
    guessed type splits into [main] and [sub]. *)
Definition attachable (fd fn : PyVal) (main sub : string) : Prop :=
  truthy fd = true ∧ truthy fn = true
  ∧ ∃ n t, py_len fd = Ok n ∧ n ≤ MAX_FILE_SIZE
           ∧ guess_type fn = Ok (Some t) ∧ t ∈ ALLOWED_MIME_TYPES
           ∧ split_slash t = Some (main, sub).

(** The messages [send_email] may build for its arguments. *)
Definition sendable (td : CustomerInfo) (fd fn : PyVal) (msg : Email) : Prop :=
  msg = base_message EMAIL_ADDRESS RECIPIENT_EMAILS py_str td
  ∨ ∃ main sub,
      attachable fd fn main sub
      ∧ msg = attach (base_message EMAIL_ADDRESS RECIPIENT_EMAILS py_str td)
                     (file_part main sub fd fn).

(** A run of [send_email] is warnings and error lines around at most one
    session with the mail server, for a message it may build. *)
Definition send_shape (td : CustomerInfo) (fd fn : PyVal) : Prop :=
  let run := send_email SMTP_SERVER EMAIL_PASSWORD EMAIL_ADDRESS
               RECIPIENT_EMAILS py_str guess_type smtp td fd fn in
  ∃ pre post,
    forallb is_warning_or_error pre = true
    ∧ forallb is_warning_or_error post = true
    ∧ (run.1 = pre ++ post
       ∨ ∃ msg,
           let session :=
             deliver SMTP_SERVER EMAIL_PASSWORD EMAIL_ADDRESS smtp msg in
           sendable td fd fn msg
           ∧ run.1 = pre ++ session.1 ++ post
           ∧ run.2 = session.2).

End Sendable.

(** ** The recipient list *)

(** [s.split(",")] *)
Fixpoint split_comma (s : string) : list string :=
  match s with
  | EmptyString => [EmptyString]
  | String c rest =>
      if Ascii.eqb c ","%char then EmptyString :: split_comma rest
      else match split_comma rest with
           | piece :: pieces => String c piece :: pieces
           | [] => [String c EmptyString]
           end
  end.

(** [RECIPIENT_EMAILS = os.getenv("RECIPIENT_EMAILS").split(",")]: an unset
    variable is [None], which has no [split]. *)
Definition load_recipient_emails (value : option string)
  : Result (list string) :=
  match value with
  | Some s => Ok (split_comma s)
  | None => Raise AttributeError
  end.

(** ** A sample environment, for running the program on examples *)

Module Sample.

(** [str()] on scalars.  The text Python gives for bytes and mappings is a
    repr that is not reproduced here; no example depends on it. *)
Definition str_of (v : PyVal) : string :=
  match v with
  | PyNone => "None"
  | PyBool true => "True"
  | PyBool false => "False"
  | PyInt z => pretty z
  | PyStr s => s
  | PyObjectId hex => hex
  | PyBytes _ => "<bytes>"
  | PyDict _ => "<dict>"
  end.

Fixpoint extension_from (s : string) (current : option string) : option string :=
  match s with
  | EmptyString => current
  | String c rest =>
      if Ascii.eqb c "."%char then extension_from rest (Some rest)
      else extension_from rest current
  end.

(** [mimetypes.guess_type] on a few extensions. *)
Definition guess (v : PyVal) : Result (option string) :=
  match v with
  | PyStr s =>
      Ok (match extension_from s None with
          | Some "pdf" => Some "application/pdf"
          | Some "jpg" | Some "jpeg" => Some "image/jpeg"
          | Some "png" => Some "image/png"
          | Some "gif" => Some "image/gif"
          | Some "txt" => Some "text/plain"
          | _ => None
          end)%string
  | _ => Raise TypeError
  end.

Definition record (name : string) (oid : string) : Form :=
  {[ "name" := PyStr name; "_id" := PyObjectId oid ]}.

Definition id1 : string := "665f00000000000000000001".
Definition id2 : string := "665f00000000000000000002".
Definition id3 : string := "665f00000000000000000003".

Definition ann : Form := record "Ann" id1.
Definition bob : Form := record "Bob" id2.
Definition cyd : Form := record "Cyd" id3.

(** A record of the collection without the [name] field. *)
Definition nameless : Form := {[ "_id" := PyObjectId id2 ]}.

(** The collection holds three records and does not change. *)
Definition three_records (poll : nat) (q : Query) : Result (list Form) :=
  match q with
  | QAll => Ok [ann; bob; cyd]
  | QGt _ => Ok []
  end.

(** The collection holds one record. *)
Definition one_record (poll : nat) (q : Query) : Result (list Form) :=
  match q with
  | QAll => Ok [ann]
  | QGt _ => Ok []
  end.

(** The database cannot be reached. *)
Definition unreachable (poll : nat) (q : Query) : Result (list Form) :=
  Raise PyMongoError.

(** A mail server that accepts every message. *)
Definition accepting (msg : Email) : SmtpOutcome := Accepted.

Definition body_of (msg : Email) : string :=
  match msg_parts msg with
  | TextPart body _ :: _ => body
  | _ => ""
  end.

(** A mail server that refuses, at [send_message], the message about the
    named customer. *)
Definition refusing (name : string) (msg : Email) : SmtpOutcome :=
  if String.prefix ("name: " +:+ name) (body_of msg)
  then FailsAt AtSendMessage SMTPException
  else Accepted.

(** A payload of [n] zero bytes. *)
Definition payload (n : Z) : PyVal := PyBytes (replicate (Z.to_nat n) Byte.x00).

Definition mail := send_email
  "smtp.example.org" "secret" "forms@example.org" ["owner@example.org"]
  str_of guess.

Definition body := loop_body
  "smtp.example.org" "secret" "forms@example.org" ["owner@example.org"]
  str_of guess.

Definition each := for_forms
  "smtp.example.org" "secret" "forms@example.org" ["owner@example.org"]
  str_of guess.

Definition turns := while_true
  "smtp.example.org" "secret" "forms@example.org" ["owner@example.org"]
  30 str_of guess.

Definition run := monitor_new_submission
  "smtp.example.org" "secret" "forms@example.org" ["owner@example.org"]
  30 str_of guess.

(** A record with a file, one whose file field is a path and not a
    sub-document, and two records whose identifiers differ and print the
    same. *)
Definition with_file : Form :=
  {[ "name" := PyStr "Dan"; "_id" := PyObjectId id1;
     "uploadedFile" :=
       PyDict {[ "data" := PyBytes [Byte.x25; Byte.x50];
                 "filename" := PyStr "plan.pdf" ]} ]}.

Definition with_path : Form :=
  {[ "name" := PyStr "Eve"; "_id" := PyObjectId id1;
     "uploadedFile" := PyStr "/uploads/plan.pdf" ]}.

Definition seven : Form := {[ "name" := PyStr "Fay"; "_id" := PyInt 7 ]}.
Definition seven_again : Form :=
  {[ "name" := PyStr "Gus"; "_id" := PyStr "7" ]}.

(** A mail server that accepts every call and answers QUIT with a code
    other than 221. *)
Definition refusing_quit (msg : Email) : SmtpOutcome := QuitRefused.

(** The collection is empty. *)
Definition empty_collection (poll : nat) (q : Query) : Result (list Form) :=
  Ok [].

Definition hand_over := transform_and_send
  "smtp.example.org" "secret" "forms@example.org" ["owner@example.org"]
  str_of guess.

Definition cycle := poll_cycle
  "smtp.example.org" "secret" "forms@example.org" ["owner@example.org"]
  30 str_of guess.

Definition turn := iteration
  "smtp.example.org" "secret" "forms@example.org" ["owner@example.org"]
  30 str_of guess.

End Sample.

(** * Properties *)

(** ** The monad *)

Lemma bind_Ok {A B} (tr : list Event) (a : A) (f : A → M B) :
  ((tr, Ok a) : M A) ≫= f = (tr ++ (f a).1, (f a).2).
Proof. unfold mbind, M_bind. by destruct (f a). Qed.

Lemma bind_Raise {A B} (tr : list Event) (e : PyExn) (f : A → M B) :
  ((tr, Raise e) : M A) ≫= f = (tr, Raise e).
Proof. reflexivity. Qed.

Lemma bind_lift_Ok {A B} (a : A) (f : A → M B) : lift (Ok a) ≫= f = f a.
Proof. unfold lift. rewrite bind_Ok. by destruct (f a). Qed.

Lemma bind_emit {B} (ev : Event) (c : M B) :
  (emit ev;; c) = (ev :: c.1, c.2).
Proof. unfold emit. by rewrite bind_Ok. Qed.

Lemma try_except_Ok {A} (tr : list Event) (a : A) h :
  try_except (tr, Ok a) h = (tr, Ok a).
Proof. reflexivity. Qed.

(** ** The form transformer *)

Lemma customer_info_keys (form : Form) :
  (customer_info_of form).*1 = customer_data_keys.
Proof. reflexivity. Qed.

Lemma customer_data_keys_NoDup : NoDup customer_data_keys.
Proof. by apply (bool_decide_unpack _); vm_compute. Qed.

Lemma process_form_cases (form : Form) :
  match process_form form with
  | (_, Ok (customer_info, _, _)) => customer_info = customer_info_of form
  | (_, Raise e) =>
      e = AttributeError ∧
      ∃ v, form !! "uploadedFile" = Some v ∧ truthy v = true ∧
           ∀ d, v ≠ PyDict d
  end.
Proof.
  unfold process_form.
  destruct (form !! "uploadedFile") as [v|] eqn:Hv; [|done].
  destruct (truthy v) eqn:Ht; [|done].
  destruct v; try (split; [done|]; eexists; by repeat split).
  cbn [py_get]. rewrite !bind_lift_Ok.
  by destruct (truthy _ && truthy _).
Qed.

(** C8: every declared field is in the mapping built by [process_form],
    with the record's value when the record has the field and the
    placeholder "N/A" when it does not; the mapping has no other field;
    and [process_form] raises only on a record whose [uploadedFile] is a
    true value that is not a mapping, never because a field is missing. *)
Theorem process_form_fills_declared_fields
    (form : Form) (key : string) (Hkey : key ∈ customer_data_keys) :
  dict_get key (customer_info_of form) = Some (default NA (form !! key))
  ∧ (customer_info_of form).*1 = customer_data_keys
  ∧ match process_form form with
    | (_, Ok (customer_info, _, _)) => customer_info = customer_info_of form
    | (_, Raise _) =>
        ∃ v, form !! "uploadedFile" = Some v ∧ truthy v = true ∧
             ∀ d, v ≠ PyDict d
    end.
Proof.
  split; [|split; [reflexivity|]].
  - unfold customer_data_keys in Hkey.
    repeat (apply elem_of_cons in Hkey as [-> | Hkey]; [reflexivity|]).
    by apply elem_of_nil in Hkey.
  - pose proof (process_form_cases form) as H.
    destruct (process_form form) as [tr [[[ci fa] fn]|e]]; [done|].
    by destruct H.
Qed.

Lemma process_form_fills_declared_fields_witness :
  "phone" ∈ customer_data_keys
  ∧ dict_get "phone" (customer_info_of Sample.ann) = Some (PyStr "N/A")
  ∧ dict_get "name" (customer_info_of Sample.ann) = Some (PyStr "Ann").
Proof.
  split; [by apply (bool_decide_unpack _); vm_compute|].
  split.
  - apply (process_form_fills_declared_fields Sample.ann "phone").
    by apply (bool_decide_unpack _); vm_compute.
  - apply (process_form_fills_declared_fields Sample.ann "name").
    by apply (bool_decide_unpack _); vm_compute.
Defined.

(** A record with no field at all is transformed without an error. *)
Lemma process_form_empty_record :
  process_form ∅ = ([], Ok (map (λ key, (key, NA)) customer_data_keys,
                            PyNone, PyNone)).
Proof. reflexivity. Qed.

Lemma truthy_dict (d : gmap string PyVal) :
  truthy (PyDict d) = true ↔ d ≠ ∅.
Proof.
  cbn [truthy]. rewrite negb_true_iff, bool_decide_eq_false. done.
Qed.

(** A sized value with a positive length is true. *)
Lemma truthy_of_len (v : PyVal) (n : Z) :
  py_len v = Ok n → 0 < n → truthy v = true.
Proof.
  destruct v as [| | |s|bs| |d]; try done; cbn; intros [= <-] Hpos.
  - by destruct s.
  - by destruct bs.
  - apply negb_true_iff, bool_decide_eq_false. intros ->.
    by rewrite map_size_empty in Hpos.
Qed.

Lemma missing_entry_is_falsy (d : gmap string PyVal) :
  d !! "data" = None ∨ d !! "filename" = None →
  truthy (file_data_of d) && truthy (file_name_of d) = false.
Proof.
  unfold file_data_of, file_name_of.
  intros [-> | ->]; cbn; [done | by rewrite andb_false_r].
Qed.

(** Where the split of [mime_type] itself succeeds, [or] keeps it. *)
Lemma mime_or_default_split (mime_type : option string) :
  is_Some (split_slash (default "application/octet-stream" mime_type)) →
  mime_or_default mime_type = default "application/octet-stream" mime_type.
Proof.
  destruct mime_type as [[|c t]|]; [|done..]. by intros [p [=]].
Qed.

(** C7, as the code has it: a file sub-object that is a non-empty mapping
    without a true payload or without a true filename gives a warning and
    a result whose payload component is [None] and whose name component is
    the filename entry of the sub-object ([None] only when it has none);
    a sub-object that is there but false (an empty mapping, [None]) gives
    the line "No file uploaded" at level INFO, not a warning, and
    [None, None]; a record without the sub-object gives [None, None] and
    no line.  None of the three raises. *)
Theorem process_form_without_attachment (form : Form) :
  (form !! "uploadedFile" = None →
   process_form form = ([], Ok (customer_info_of form, PyNone, PyNone)))
  ∧ (∀ v, form !! "uploadedFile" = Some v → truthy v = false →
     process_form form =
       ([Log INFO MsgNoFileUploaded],
        Ok (customer_info_of form, PyNone, PyNone)))
  ∧ (∀ d, form !! "uploadedFile" = Some (PyDict d) → d ≠ ∅ →
     truthy (file_data_of d) && truthy (file_name_of d) = false →
     process_form form =
       ([Log WARNING (MsgInvalidFile (file_name_of d))],
        Ok (customer_info_of form, PyNone, file_name_of d))).
Proof.
  unfold process_form. repeat split.
  - by intros ->.
  - by intros v -> ->.
  - intros d -> Hd%truthy_dict Hbad. rewrite Hd.
    cbn [py_get]. rewrite !bind_lift_Ok.
    fold (file_data_of d) (file_name_of d). by rewrite Hbad.
Qed.

Lemma process_form_without_attachment_witness :
  process_form Sample.ann = ([], Ok (customer_info_of Sample.ann, PyNone, PyNone))
  ∧ process_form {[ "uploadedFile" := PyNone ]} =
      ([Log INFO MsgNoFileUploaded],
       Ok (customer_info_of {[ "uploadedFile" := PyNone ]}, PyNone, PyNone))
  ∧ process_form {[ "uploadedFile" := PyDict {[ "data" := PyBytes [Byte.x01] ]} ]} =
      ([Log WARNING (MsgInvalidFile PyNone)],
       Ok (customer_info_of
             {[ "uploadedFile" := PyDict {[ "data" := PyBytes [Byte.x01] ]} ]},
           PyNone, PyNone)).
Proof.
  split; [|split].
  - by apply (proj1 (process_form_without_attachment Sample.ann)).
  - by eapply (proj1 (proj2 (process_form_without_attachment
                               {[ "uploadedFile" := PyNone ]}))).
  - exact (proj2 (proj2 (process_form_without_attachment
             {[ "uploadedFile" := PyDict {[ "data" := PyBytes [Byte.x01] ]} ]}))
             {[ "data" := PyBytes [Byte.x01] ]}
             eq_refl
             (proj1 (truthy_dict {[ "data" := PyBytes [Byte.x01] ]}) eq_refl)
             eq_refl).
Defined.

(** C7 as stated fails on the code: a sub-object with a filename and no
    payload gives a result whose name component is the filename, not
    [None]; and an empty sub-object, which lacks both, gives a line at
    level INFO and no warning. *)
Lemma process_form_malformed_file_keeps_name :
  let sub : gmap string PyVal := {[ "filename" := PyStr "plan.pdf" ]} in
  let form : Form := {[ "uploadedFile" := PyDict sub ]} in
  let empty : Form := {[ "uploadedFile" := PyDict ∅ ]} in
  sub !! "data" = None
  ∧ process_form form =
      ([Log WARNING (MsgInvalidFile (PyStr "plan.pdf"))],
       Ok (customer_info_of form, PyNone, PyStr "plan.pdf"))
  ∧ PyStr "plan.pdf" ≠ PyNone
  ∧ process_form empty =
      ([Log INFO MsgNoFileUploaded],
       Ok (customer_info_of empty, PyNone, PyNone)).
Proof. repeat split; done. Qed.

(** ** The notifier *)

Section Notifier.

Context (SMTP_SERVER EMAIL_PASSWORD EMAIL_ADDRESS : string)
        (RECIPIENT_EMAILS : list string)
        (py_str : PyVal → string)
        (guess_type : PyVal → Result (option string))
        (smtp : Email → SmtpOutcome).

#[local] Abbreviation send :=
  (send_email SMTP_SERVER EMAIL_PASSWORD EMAIL_ADDRESS RECIPIENT_EMAILS
              py_str guess_type smtp).
#[local] Abbreviation send_try :=
  (send_email_try SMTP_SERVER EMAIL_PASSWORD EMAIL_ADDRESS RECIPIENT_EMAILS
                  py_str guess_type smtp).
#[local] Abbreviation session :=
  (deliver SMTP_SERVER EMAIL_PASSWORD EMAIL_ADDRESS smtp).
#[local] Abbreviation plain_message :=
  (base_message EMAIL_ADDRESS RECIPIENT_EMAILS py_str).

Lemma try_except_emit {A} (ev : Event) (c : M A) h :
  try_except (emit ev;; c) h = (emit ev;; try_except c h).
Proof.
  rewrite !bind_emit. destruct c as [tr [a|e]]; [done|].
  cbn. by destruct (h e).
Qed.

(** The message without a file has the text part and nothing else. *)
Lemma base_message_parts (text_data : CustomerInfo) :
  msg_parts (plain_message text_data) =
    [TextPart (email_body py_str text_data) "plain"].
Proof. reflexivity. Qed.

(** Sending without a file is the delivery of the message without a file. *)
Lemma send_email_no_file (text_data : CustomerInfo) :
  send text_data PyNone PyNone =
    try_except (session (plain_message text_data)) send_email_except.
Proof. reflexivity. Qed.

(** A session that the server accepts. *)
Lemma deliver_accepted (msg : Email) :
  smtp msg = Accepted →
  session msg =
    ([Smtp (Connect SMTP_SERVER SMTP_PORT); Smtp Starttls;
      Smtp (Login EMAIL_ADDRESS EMAIL_PASSWORD); Smtp (SendMessage msg);
      Log INFO MsgEmailSent; Smtp Close], Ok tt).
Proof. intros H. unfold deliver, smtp_call, smtp_exit. by rewrite H. Qed.

(** With a true payload and a true name, [send_email] measures the payload. *)
Lemma send_email_try_with_file text_data file_data file_name n :
  truthy file_data = true → truthy file_name = true →
  py_len file_data = Ok n →
  send_try text_data file_data file_name =
    if n >? MAX_FILE_SIZE then
      logging WARNING (MsgSizeLimit file_name);;
      session (plain_message text_data)
    else
      mime_type ← lift (guess_type file_name);
      ts ← lift (unpack_type (mime_or_default mime_type));
      if negb (mime_allowed mime_type) then
        logging WARNING (MsgUnsupportedType mime_type)
      else
        lift (encode_base64 file_data);;
        session (attach (plain_message text_data)
                        (file_part ts.1 ts.2 file_data file_name)).
Proof.
  intros Hd Hn Hlen. unfold send_email_try.
  rewrite Hd, Hn, Hlen. cbn [andb]. by rewrite bind_lift_Ok.
Qed.

Lemma send_email_oversized text_data file_data file_name n :
  truthy file_data = true → truthy file_name = true →
  py_len file_data = Ok n → MAX_FILE_SIZE < n →
  send text_data file_data file_name =
    (logging WARNING (MsgSizeLimit file_name);;
     send text_data PyNone PyNone).
Proof.
  intros Hd Hn Hlen Hbig. unfold send_email at 1.
  rewrite (send_email_try_with_file _ _ _ n) by done.
  replace (n >? MAX_FILE_SIZE) with true by (symmetry; by apply Z.gtb_lt).
  apply try_except_emit.
Qed.

Lemma send_email_unsupported text_data file_data file_name n mime_type :
  truthy file_data = true → truthy file_name = true →
  py_len file_data = Ok n → n ≤ MAX_FILE_SIZE →
  guess_type file_name = Ok mime_type → mime_allowed mime_type = false →
  send text_data file_data file_name =
    match split_slash (mime_or_default mime_type) with
    | Some _ => ([Log WARNING (MsgUnsupportedType mime_type)], Ok tt)
    | None => ([Log ERROR (MsgErrorIn "Error sending email" ValueError)],
               Raise ValueError)
    end.
Proof.
  intros Hd Hn Hlen Hsmall Hguess Hbad. unfold send_email.
  rewrite (send_email_try_with_file _ _ _ n) by done.
  replace (n >? MAX_FILE_SIZE) with false
    by (symmetry; rewrite Z.gtb_ltb; apply Z.ltb_ge; lia).
  rewrite Hguess, bind_lift_Ok. unfold unpack_type.
  destruct (split_slash _) as [ts|]; [|done].
  rewrite bind_lift_Ok, Hbad. done.
Qed.

(** C4: with a payload and a name that are there, a payload longer than
    the ceiling gives a warning and then exactly what sending the same
    fields without a file gives, a message with the text part alone
    (which goes out when the server accepts it); a payload within the
    ceiling whose guessed type is not allowed makes no call to the mail
    server at all, and the function returns after its warning. *)
Theorem send_email_attachment_policy
    (text_data : CustomerInfo) (file_data file_name : PyVal) (n : Z)
    (Hdata : truthy file_data = true) (Hname : truthy file_name = true)
    (Hlen : py_len file_data = Ok n) :
  (MAX_FILE_SIZE < n →
   send text_data file_data file_name =
     (logging WARNING (MsgSizeLimit file_name);;
      send text_data PyNone PyNone)
   ∧ send text_data PyNone PyNone =
       try_except (session (plain_message text_data)) send_email_except
   ∧ msg_parts (plain_message text_data) =
       [TextPart (email_body py_str text_data) "plain"]
   ∧ (smtp (plain_message text_data) = Accepted →
      Smtp (SendMessage (plain_message text_data))
        ∈ trace (send text_data file_data file_name)
      ∧ outcome (send text_data file_data file_name) = Ok tt))
  ∧ (n ≤ MAX_FILE_SIZE →
     ∀ mime_type, guess_type file_name = Ok mime_type →
     mime_allowed mime_type = false →
     (∀ call, Smtp call ∉ trace (send text_data file_data file_name))
     ∧ (is_Some (split_slash (default "application/octet-stream" mime_type)) →
        send text_data file_data file_name =
          ([Log WARNING (MsgUnsupportedType mime_type)], Ok tt))).
Proof.
  split.
  - intros Hbig.
    rewrite (send_email_oversized _ _ _ n) by done.
    split; [done|]. split; [done|]. split; [done|].
    intros Hacc.
    rewrite send_email_no_file, (deliver_accepted _ Hacc).
    split; [|done]. cbn. set_solver.
  - intros Hsmall mime_type Hguess Hbad.
    rewrite (send_email_unsupported _ _ _ n mime_type) by done.
    destruct (split_slash (mime_or_default mime_type)) as [ts|] eqn:Hs.
    + split; [|done]. by intros call ?%list_elem_of_singleton.
    + split; [by intros call ?%list_elem_of_singleton|].
      intros Hsome. rewrite <- (mime_or_default_split _ Hsome), Hs in Hsome.
      by destruct Hsome.
Qed.

(** C9: the size test is [len(file_data) > MAX_FILE_SIZE] with
    [MAX_FILE_SIZE] = 5 * 1024 * 1024 = 5242880.  A payload of exactly
    that length (bytes or text, which [encode_base64] takes), under a name
    of an allowed type, is attached: the message of the session is the
    text part followed by the file part, and when the server accepts it
    the calls are connect, starttls, login, send_message of that message,
    with no warning.  A payload one byte longer gives the warning and then
    what sending the fields without a file gives: when the server accepts
    it, the message with the text part alone is sent. *)
Theorem size_check_is_strict
    (text_data : CustomerInfo) (at_ceiling over_ceiling file_name : PyVal)
    (mime_type : string)
    (Hname : truthy file_name = true)
    (Hat : py_len at_ceiling = Ok MAX_FILE_SIZE)
    (Hencodes : encode_base64 at_ceiling = Ok tt)
    (Hover : py_len over_ceiling = Ok (MAX_FILE_SIZE + 1))
    (Hguess : guess_type file_name = Ok (Some mime_type))
    (Hallowed : mime_type ∈ ALLOWED_MIME_TYPES) :
  MAX_FILE_SIZE = 5242880
  ∧ (∃ main_type sub_type,
       split_slash mime_type = Some (main_type, sub_type)
       ∧ send text_data at_ceiling file_name =
           try_except
             (session (attach (plain_message text_data)
                              (file_part main_type sub_type
                                         at_ceiling file_name)))
             send_email_except
       ∧ msg_parts (attach (plain_message text_data)
                           (file_part main_type sub_type at_ceiling file_name))
         = [TextPart (email_body py_str text_data) "plain";
            BasePart main_type sub_type at_ceiling file_name]
       ∧ (smtp (attach (plain_message text_data)
                       (file_part main_type sub_type at_ceiling file_name))
            = Accepted →
          send text_data at_ceiling file_name =
            ([Smtp (Connect SMTP_SERVER SMTP_PORT); Smtp Starttls;
              Smtp (Login EMAIL_ADDRESS EMAIL_PASSWORD);
              Smtp (SendMessage
                      (attach (plain_message text_data)
                              (file_part main_type sub_type
                                         at_ceiling file_name)));
              Log INFO MsgEmailSent; Smtp Close], Ok tt)))
  ∧ send text_data over_ceiling file_name =
      (logging WARNING (MsgSizeLimit file_name);;
       send text_data PyNone PyNone)
  ∧ send text_data PyNone PyNone =
      try_except (session (plain_message text_data)) send_email_except
  ∧ msg_parts (plain_message text_data)
    = [TextPart (email_body py_str text_data) "plain"]
  ∧ (smtp (plain_message text_data) = Accepted →
     send text_data over_ceiling file_name =
       ([Log WARNING (MsgSizeLimit file_name);
         Smtp (Connect SMTP_SERVER SMTP_PORT); Smtp Starttls;
         Smtp (Login EMAIL_ADDRESS EMAIL_PASSWORD);
         Smtp (SendMessage (plain_message text_data));
         Log INFO MsgEmailSent; Smtp Close], Ok tt)).
Proof.
  assert (send text_data over_ceiling file_name =
      (logging WARNING (MsgSizeLimit file_name);;
       send text_data PyNone PyNone)) as Hdrop.
  { apply (send_email_oversized _ _ _ (MAX_FILE_SIZE + 1)); [|done..|lia].
    by apply (truthy_of_len _ _ Hover). }
  split; [reflexivity|]. split; [|split; [done|split; [done|split; [done|]]]].
  - assert (∃ p, split_slash mime_type = Some p
                 ∧ mime_or_default (Some mime_type) = mime_type
                 ∧ mime_allowed (Some mime_type) = true)
      as [[main sub] (Hs & Hor & Ha)].
    { unfold ALLOWED_MIME_TYPES in Hallowed.
      repeat (apply elem_of_cons in Hallowed as [-> | Hallowed];
              [by eexists|]).
      by apply elem_of_nil in Hallowed. }
    exists main, sub. split; [done|].
    assert (truthy at_ceiling = true) by by apply (truthy_of_len _ _ Hat).
    assert (send text_data at_ceiling file_name =
              try_except
                (session (attach (plain_message text_data)
                            (file_part main sub at_ceiling file_name)))
                send_email_except) as Hsend.
    { unfold send_email.
      rewrite (send_email_try_with_file _ _ _ MAX_FILE_SIZE) by done.
      rewrite Z.gtb_ltb, Z.ltb_irrefl, Hguess, bind_lift_Ok, Hor.
      unfold unpack_type.
      by rewrite Hs, bind_lift_Ok, Ha, Hencodes, bind_lift_Ok. }
    split; [done|]. split; [done|].
    intros Hacc. by rewrite Hsend, (deliver_accepted _ Hacc).
  - intros Hacc.
    by rewrite Hdrop, send_email_no_file, (deliver_accepted _ Hacc).
Qed.

End Notifier.

Lemma payload_len (n : Z) : 0 ≤ n → py_len (Sample.payload n) = Ok n.
Proof.
  intros Hn. unfold Sample.payload. cbn [py_len].
  by rewrite length_replicate, Z2Nat.id.
Qed.

Lemma payload_truthy (n : Z) : 0 < n → truthy (Sample.payload n) = true.
Proof.
  intros Hn. apply (truthy_of_len _ n); [|done]. apply payload_len. lia.
Qed.

Lemma send_email_attachment_policy_witness :
  Sample.mail Sample.accepting (customer_info_of Sample.ann)
              (Sample.payload 3) (PyStr "notes.txt")
    = ([Log WARNING (MsgUnsupportedType (Some "text/plain"))], Ok tt)
  ∧ Sample.mail Sample.accepting (customer_info_of Sample.ann)
                (Sample.payload (MAX_FILE_SIZE + 7)) (PyStr "notes.txt")
    = (logging WARNING (MsgSizeLimit (PyStr "notes.txt"));;
       Sample.mail Sample.accepting (customer_info_of Sample.ann) PyNone PyNone).
Proof.
  split.
  - refine (proj2 (proj2 (send_email_attachment_policy
      "smtp.example.org" "secret" "forms@example.org" ["owner@example.org"]
      Sample.str_of Sample.guess Sample.accepting
      (customer_info_of Sample.ann) (Sample.payload 3) (PyStr "notes.txt") 3
      eq_refl eq_refl eq_refl) _ (Some "text/plain") eq_refl eq_refl) _).
    + vm_compute. discriminate.
    + by eexists.
  - refine (proj1 (proj1 (send_email_attachment_policy
      "smtp.example.org" "secret" "forms@example.org" ["owner@example.org"]
      Sample.str_of Sample.guess Sample.accepting
      (customer_info_of Sample.ann) (Sample.payload (MAX_FILE_SIZE + 7))
      (PyStr "notes.txt") (MAX_FILE_SIZE + 7) _ eq_refl _) _)).
    + apply payload_truthy. reflexivity.
    + apply payload_len. discriminate.
    + reflexivity.
Defined.

Lemma size_check_is_strict_witness :
  py_len (Sample.payload MAX_FILE_SIZE) = Ok 5242880
  ∧ py_len (Sample.payload (MAX_FILE_SIZE + 1)) = Ok 5242881
  ∧ Sample.guess (PyStr "plan.pdf") = Ok (Some "application/pdf")
  ∧ Sample.mail Sample.accepting (customer_info_of Sample.ann)
                (Sample.payload MAX_FILE_SIZE) (PyStr "plan.pdf")
    = ([Smtp (Connect "smtp.example.org" 465); Smtp Starttls;
        Smtp (Login "forms@example.org" "secret");
        Smtp (SendMessage
                (attach
                   (base_message "forms@example.org" ["owner@example.org"]
                      Sample.str_of (customer_info_of Sample.ann))
                   (file_part "application" "pdf"
                      (Sample.payload MAX_FILE_SIZE) (PyStr "plan.pdf"))));
        Log INFO MsgEmailSent; Smtp Close], Ok tt)
  ∧ Sample.mail Sample.accepting (customer_info_of Sample.ann)
                (Sample.payload (MAX_FILE_SIZE + 1)) (PyStr "plan.pdf")
    = ([Log WARNING (MsgSizeLimit (PyStr "plan.pdf"));
        Smtp (Connect "smtp.example.org" 465); Smtp Starttls;
        Smtp (Login "forms@example.org" "secret");
        Smtp (SendMessage
                (base_message "forms@example.org" ["owner@example.org"]
                   Sample.str_of (customer_info_of Sample.ann)));
        Log INFO MsgEmailSent; Smtp Close], Ok tt).
Proof.
  assert (Hat : py_len (Sample.payload MAX_FILE_SIZE) = Ok MAX_FILE_SIZE)
    by (apply payload_len; discriminate).
  assert (Hover : py_len (Sample.payload (MAX_FILE_SIZE + 1))
                  = Ok (MAX_FILE_SIZE + 1))
    by (apply payload_len; discriminate).
  assert (Hin : "application/pdf" ∈ ALLOWED_MIME_TYPES)
    by (by apply (bool_decide_unpack _); vm_compute).
  split; [exact Hat|]. split; [exact Hover|]. split; [reflexivity|].
  destruct (size_check_is_strict
    "smtp.example.org" "secret" "forms@example.org" ["owner@example.org"]
    Sample.str_of Sample.guess Sample.accepting
    (customer_info_of Sample.ann) (Sample.payload MAX_FILE_SIZE)
    (Sample.payload (MAX_FILE_SIZE + 1)) (PyStr "plan.pdf") "application/pdf"
    eq_refl Hat eq_refl Hover eq_refl Hin)
    as (_ & (main & sub & Hs & _ & _ & Hsent) & _ & _ & _ & Hdropped).
  injection Hs as <- <-.
  split; [exact (Hsent eq_refl)|exact (Hdropped eq_refl)].
Defined.

(** ** Traces *)

Lemma processed_ids_app (tr1 tr2 : list Event) :
  processed_ids (tr1 ++ tr2) = processed_ids tr1 ++ processed_ids tr2.
Proof.
  induction tr1 as [|ev tr1 IH]; [done|].
  destruct ev as [lvl []| | | |]; cbn; by rewrite ?IH.
Qed.

Lemma processed_ids_quiet (tr : list Event) :
  forallb quiet tr = true → processed_ids tr = [].
Proof.
  induction tr as [|ev tr IH]; [done|].
  cbn [forallb]. intros [Hq Htr]%andb_prop.
  destruct ev as [lvl []| | | |]; try done; by apply IH.
Qed.

Lemma forallb_weaken (P Q : Event → bool) (tr : list Event) :
  (∀ ev, P ev = true → Q ev = true) →
  forallb P tr = true → forallb Q tr = true.
Proof.
  intros HPQ. induction tr as [|ev tr IH]; [done|].
  cbn [forallb]. intros [Hev Htr]%andb_prop.
  by rewrite (HPQ _ Hev), IH.
Qed.

Lemma quiet_no_thread_start (ev : Event) :
  quiet ev = true → negb (is_thread_start ev) = true.
Proof. by destruct ev. Qed.

Section Events.

Context (P : Event → bool).

Lemma events_lift {A} (r : Result A) : events P (lift r).
Proof. done. Qed.

Lemma events_bind {A B} (c : M A) (f : A → M B) :
  events P c → (∀ a, events P (f a)) → events P (c ≫= f).
Proof.
  unfold events. destruct c as [tr [a|e]]; cbn [fst]; intros Hc Hf; [|done].
  rewrite bind_Ok. cbn [fst]. rewrite forallb_app, Hc. apply Hf.
Qed.

Lemma events_try_except {A} (c : M A) (h : PyExn → M A) :
  events P c → (∀ e, events P (h e)) → events P (try_except c h).
Proof.
  unfold events. destruct c as [tr [a|e]]; cbn [fst]; intros Hc Hh; [done|].
  unfold try_except. specialize (Hh e). destruct (h e) as [tr' r].
  cbn [fst] in *. by rewrite forallb_app, Hc.
Qed.

Lemma events_time_sleep (secs : Z) :
  P (Sleep secs) = true → events P (time_sleep secs).
Proof.
  intros HP. unfold events, time_sleep. rewrite bind_emit. cbn [fst forallb].
  rewrite HP. by destruct (_ || _), (secs <? 0).
Qed.

Lemma loop_events_ret {A} (a : A) : loop_events P (mret a : Loop A).
Proof. by intros st. Qed.

Lemma loop_events_liftM {A} (c : M A) : events P c → loop_events P (liftM c).
Proof. by intros Hc st. Qed.

Lemma loop_events_bind {A B} (c : Loop A) (f : A → Loop B) :
  loop_events P c → (∀ a, loop_events P (f a)) → loop_events P (c ≫= f).
Proof.
  intros Hc Hf st. specialize (Hc st). unfold mbind, Loop_bind.
  destruct (c st) as [st1 [tr [a|e]]]; cbn [fst snd] in *; [|done].
  specialize (Hf a st1). destruct (f a st1) as [st2 [tr' r]].
  cbn [fst snd] in *. by rewrite forallb_app, Hc.
Qed.

Lemma loop_events_try_except {A} (c : Loop A) (h : PyExn → Loop A) :
  loop_events P c → (∀ e, loop_events P (h e)) →
  loop_events P (try_except_loop c h).
Proof.
  intros Hc Hh st. specialize (Hc st). unfold try_except_loop.
  destruct (c st) as [st1 [tr [a|e]]]; cbn [fst snd] in *; [done|].
  specialize (Hh e st1). destruct (h e st1) as [st2 [tr' r]].
  cbn [fst snd] in *. by rewrite forallb_app, Hc.
Qed.

End Events.

(** ** The dedup set *)

Lemma dedup_step_silent (st st' : LoopState) (tr : list Event) :
  seen_ids st' = seen_ids st → processed_ids tr = [] → dedup_step st tr st'.
Proof.
  intros Hs Hp. unfold dedup_step. rewrite Hs, Hp.
  split; [done|]. split; [constructor|]. by intros i ?%elem_of_nil.
Qed.

Lemma dedup_step_trans (st st1 st2 : LoopState) (tr tr' : list Event) :
  dedup_step st tr st1 → dedup_step st1 tr' st2 →
  dedup_step st (tr ++ tr') st2.
Proof.
  intros (Hsub1 & Hnd1 & Hin1) (Hsub2 & Hnd2 & Hin2).
  unfold dedup_step. rewrite processed_ids_app.
  split; [by etrans|]. split.
  - apply NoDup_app. split; [done|]. split; [|done].
    intros i Hi1 Hi2. apply Hin1 in Hi1 as [_ Hi1].
    apply Hin2 in Hi2 as [Hi2 _]. done.
  - intros i [Hi|Hi]%elem_of_app.
    + apply Hin1 in Hi as [Hi Hi']. split; [done|]. by apply Hsub2.
    + apply Hin2 in Hi as [Hi Hi']. split; [|done].
      intros Hst. by apply Hi, Hsub1.
Qed.

Lemma dedup_ok_ret {A} (a : A) : dedup_ok (mret a : Loop A).
Proof. intros st. by apply dedup_step_silent. Qed.

Lemma dedup_ok_liftM {A} (c : M A) : events quiet c → dedup_ok (liftM c).
Proof.
  intros Hq%processed_ids_quiet st. by apply dedup_step_silent.
Qed.

Lemma dedup_ok_bind {A B} (c : Loop A) (f : A → Loop B) :
  dedup_ok c → (∀ a, dedup_ok (f a)) → dedup_ok (c ≫= f).
Proof.
  intros Hc Hf st. specialize (Hc st). unfold mbind, Loop_bind.
  destruct (c st) as [st1 [tr [a|e]]]; cbn [fst snd] in *; [|done].
  specialize (Hf a st1). destruct (f a st1) as [st2 [tr' r]].
  cbn [fst snd] in *. by eapply dedup_step_trans.
Qed.

Lemma dedup_ok_try_except {A} (c : Loop A) (h : PyExn → Loop A) :
  dedup_ok c → (∀ e, dedup_ok (h e)) → dedup_ok (try_except_loop c h).
Proof.
  intros Hc Hh st. specialize (Hc st). unfold try_except_loop.
  destruct (c st) as [st1 [tr [a|e]]]; cbn [fst snd] in *; [done|].
  specialize (Hh e st1). destruct (h e st1) as [st2 [tr' r]].
  cbn [fst snd] in *. by eapply dedup_step_trans.
Qed.

(** ** The watch loop *)

Section WatchLoop.

Context (SMTP_SERVER EMAIL_PASSWORD EMAIL_ADDRESS : string)
        (RECIPIENT_EMAILS : list string)
        (POLLING_INTERVAL : Z)
        (py_str : PyVal → string)
        (guess_type : PyVal → Result (option string))
        (smtp : Email → SmtpOutcome)
        (collection : nat → Query → Result (list Form)).

#[local] Abbreviation send :=
  (send_email SMTP_SERVER EMAIL_PASSWORD EMAIL_ADDRESS RECIPIENT_EMAILS
              py_str guess_type smtp).
#[local] Abbreviation session :=
  (deliver SMTP_SERVER EMAIL_PASSWORD EMAIL_ADDRESS smtp).
#[local] Abbreviation hand_over :=
  (transform_and_send SMTP_SERVER EMAIL_PASSWORD EMAIL_ADDRESS
                      RECIPIENT_EMAILS py_str guess_type smtp).
#[local] Abbreviation body :=
  (loop_body SMTP_SERVER EMAIL_PASSWORD EMAIL_ADDRESS RECIPIENT_EMAILS
             py_str guess_type smtp).
#[local] Abbreviation each :=
  (for_forms SMTP_SERVER EMAIL_PASSWORD EMAIL_ADDRESS RECIPIENT_EMAILS
             py_str guess_type smtp).
#[local] Abbreviation cycle :=
  (poll_cycle SMTP_SERVER EMAIL_PASSWORD EMAIL_ADDRESS RECIPIENT_EMAILS
              POLLING_INTERVAL py_str guess_type smtp collection).
#[local] Abbreviation turn :=
  (iteration SMTP_SERVER EMAIL_PASSWORD EMAIL_ADDRESS RECIPIENT_EMAILS
             POLLING_INTERVAL py_str guess_type smtp collection).
#[local] Abbreviation turns :=
  (while_true SMTP_SERVER EMAIL_PASSWORD EMAIL_ADDRESS RECIPIENT_EMAILS
              POLLING_INTERVAL py_str guess_type smtp collection).
#[local] Abbreviation monitor :=
  (monitor_new_submission SMTP_SERVER EMAIL_PASSWORD EMAIL_ADDRESS
     RECIPIENT_EMAILS POLLING_INTERVAL py_str guess_type smtp collection).

(** *** What the notifier and the transformer write *)

Lemma deliver_quiet (msg : Email) : events quiet (session msg).
Proof.
  unfold events, deliver, smtp_call, smtp_exit.
  destruct (smtp msg) as [|[] e|]; reflexivity.
Qed.

Lemma send_email_quiet text_data file_data file_name :
  events quiet (send text_data file_data file_name).
Proof.
  unfold send_email. apply events_try_except; [|by intros []].
  unfold send_email_try.
  destruct (truthy file_data && truthy file_name); [|apply deliver_quiet].
  apply events_bind; [apply events_lift|]. intros n.
  destruct (n >? MAX_FILE_SIZE).
  - apply events_bind; [done|]. intros _. apply deliver_quiet.
  - apply events_bind; [apply events_lift|]. intros mime_type.
    apply events_bind; [apply events_lift|]. intros ts.
    destruct (negb _); [done|].
    apply events_bind; [apply events_lift|]. intros _. apply deliver_quiet.
Qed.

Lemma process_form_quiet (form : Form) : events quiet (process_form form).
Proof.
  unfold process_form.
  destruct (form !! "uploadedFile") as [v|]; [|done].
  destruct (truthy v); [|done].
  apply events_bind; [apply events_lift|]. intros file_data.
  apply events_bind; [apply events_lift|]. intros file_name.
  by destruct (_ && _).
Qed.

Lemma transform_and_send_quiet (form : Form) : events quiet (hand_over form).
Proof.
  unfold transform_and_send.
  apply events_bind; [apply process_form_quiet|].
  intros [[ci fa] fn]. apply send_email_quiet.
Qed.

(** *** One record *)

Lemma loop_body_unfold (form : Form) (st : LoopState) (name id : PyVal) :
  form !! "name" = Some name → form !! "_id" = Some id →
  body form st =
    if bool_decide (py_str id ∈ seen_ids st) then
      (mkLoopState (seen_ids st) id, ([], Ok tt))
    else
      (mkLoopState ({[py_str id]} ∪ seen_ids st) id,
       (Log INFO (MsgProcessing (py_str name) (py_str id))
          :: (hand_over form).1,
        (hand_over form).2)).
Proof.
  intros Hname Hid. unfold loop_body, subscript. rewrite Hname, Hid.
  unfold mbind, Loop_bind. cbn.
  destruct (bool_decide _); [done|]. cbn.
  unfold transform_and_send.
  destruct (process_form form) as [tr [[[ci fa] fn]|e]]; cbn; [|done].
  by destruct (send_email _ _ _ _ _ _ _ ci fa fn).
Qed.

Lemma loop_body_no_name (form : Form) (st : LoopState) :
  form !! "name" = None → body form st = (st, ([], Raise (KeyError "name"))).
Proof. intros H. unfold loop_body, subscript. by rewrite H. Qed.

Lemma loop_body_no_id (form : Form) (st : LoopState) :
  is_Some (form !! "name") → form !! "_id" = None →
  body form st = (st, ([], Raise (KeyError "_id"))).
Proof. intros [n Hn] H. unfold loop_body, subscript. by rewrite Hn, H. Qed.

(** The mark is the identifier of the record as soon as the record has
    been looked at, whatever the transformer and the notifier do next. *)
Lemma loop_body_advances_mark (form : Form) (st : LoopState) (name id : PyVal) :
  form !! "name" = Some name → form !! "_id" = Some id →
  last_checked_id (body form st).1 = id.
Proof.
  intros Hname Hid. rewrite (loop_body_unfold _ _ name id) by done.
  by destruct (bool_decide _).
Qed.

Lemma loop_body_Ok_has_id (form : Form) (st : LoopState) :
  (body form st).2.2 = Ok tt →
  ∃ name id, form !! "name" = Some name ∧ form !! "_id" = Some id.
Proof.
  destruct (form !! "name") as [name|] eqn:Hname.
  - destruct (form !! "_id") as [id|] eqn:Hid.
    + intros _. by exists name, id.
    + by rewrite loop_body_no_id.
  - by rewrite loop_body_no_name.
Qed.

(** A cycle that runs to its end leaves the mark at the identifier of the
    last record of the batch. *)
Lemma for_forms_mark_is_last_id (new_forms : list Form) (st : LoopState)
    (form : Form) (id : PyVal) :
  (each new_forms st).2.2 = Ok tt →
  last new_forms = Some form → form !! "_id" = Some id →
  last_checked_id (each new_forms st).1 = id.
Proof.
  revert st. induction new_forms as [|f rest IH]; [done|].
  intros st Hok Hlast Hid. cbn [for_forms] in *.
  unfold mbind, Loop_bind in *.
  destruct (body f st) as [st1 [tr [[]|e]]] eqn:Hbody; [|done].
  destruct rest as [|g rest].
  - cbn in *. injection Hlast as ->.
    destruct (loop_body_Ok_has_id form st) as (name & id' & Hn & Hi);
      [by rewrite Hbody|].
    pose proof (loop_body_advances_mark form st name id' Hn Hi) as Hm.
    rewrite Hbody in Hm. cbn in Hm. congruence.
  - specialize (IH st1).
    destruct (each (g :: rest) st1) as [st2 [tr' r]].
    cbn [fst snd] in *. by apply IH.
Qed.

(** The cycle runs to its end when every record has a name and an
    identifier and no transformation and no send raises. *)
Lemma for_forms_completes (new_forms : list Form) (st : LoopState) :
  Forall (λ form, is_Some (form !! "name") ∧ is_Some (form !! "_id")
                  ∧ (hand_over form).2 = Ok tt) new_forms →
  (each new_forms st).2.2 = Ok tt.
Proof.
  intros Hall. revert st.
  induction Hall as [|f rest ([name Hn] & [id Hi] & Hsend) _ IH]; [done|].
  intros st. cbn [for_forms]. unfold mbind, Loop_bind.
  rewrite (loop_body_unfold _ _ name id) by done.
  destruct (bool_decide _); [|rewrite Hsend];
    match goal with
    | |- context [each rest ?st1] =>
        specialize (IH st1); by destruct (each rest st1) as [st2 [tr' r]]
    end.
Qed.

(** *** The dedup set along the run *)

Lemma loop_body_dedup_ok (form : Form) : dedup_ok (body form).
Proof.
  intros st.
  destruct (form !! "name") as [name|] eqn:Hname;
    [|rewrite loop_body_no_name by done; by apply dedup_step_silent].
  destruct (form !! "_id") as [id|] eqn:Hid;
    [|rewrite loop_body_no_id by done; by apply dedup_step_silent].
  rewrite (loop_body_unfold _ _ name id) by done.
  destruct (bool_decide _) eqn:Hseen; [by apply dedup_step_silent|].
  apply bool_decide_eq_false in Hseen.
  unfold dedup_step. cbn [fst snd processed_ids seen_ids].
  rewrite (processed_ids_quiet _ (transform_and_send_quiet form)).
  split; [apply union_subseteq_r|]. split; [apply NoDup_singleton|].
  intros i ->%list_elem_of_singleton. split; [done|].
  apply elem_of_union_l, elem_of_singleton. done.
Qed.

Lemma for_forms_dedup_ok (new_forms : list Form) : dedup_ok (each new_forms).
Proof.
  induction new_forms as [|form rest IH]; [apply dedup_ok_ret|].
  cbn [for_forms]. apply dedup_ok_bind; [apply loop_body_dedup_ok|done].
Qed.

Lemma poll_cycle_dedup_ok (poll : nat) : dedup_ok (cycle poll).
Proof.
  unfold poll_cycle.
  apply dedup_ok_bind; [intros st; by apply dedup_step_silent|]. intros last.
  apply dedup_ok_bind; [by apply dedup_ok_liftM|]. intros new_forms.
  apply dedup_ok_bind; [apply for_forms_dedup_ok|]. intros _.
  by apply dedup_ok_liftM, events_time_sleep.
Qed.

Lemma iteration_dedup_ok (poll : nat) : dedup_ok (turn poll).
Proof.
  unfold iteration.
  apply dedup_ok_try_except; [apply poll_cycle_dedup_ok|]. intros e.
  apply dedup_ok_bind; [by apply dedup_ok_liftM|]. intros _.
  by apply dedup_ok_liftM, events_time_sleep.
Qed.

Lemma while_true_dedup_ok (fuel poll : nat) : dedup_ok (turns fuel poll).
Proof.
  revert poll. induction fuel as [|fuel IH]; intros poll;
    [apply dedup_ok_ret|].
  cbn [while_true]. apply dedup_ok_bind; [apply iteration_dedup_ok|done].
Qed.

Lemma monitor_trace (fuel : nat) :
  run_trace (monitor fuel) =
    Log INFO MsgMonitoring :: (turns fuel 0 initial_state).2.1.
Proof.
  unfold monitor_new_submission, run_trace, mbind, Loop_bind, liftM.
  cbn [logging emit]. by destruct (turns fuel 0 initial_state) as [st [tr []]].
Qed.

(** *** The loop starts no thread *)

Lemma loop_body_no_thread_start (form : Form) :
  loop_events (λ ev, negb (is_thread_start ev)) (body form).
Proof.
  intros st.
  destruct (form !! "name") as [name|] eqn:Hname;
    [|by rewrite loop_body_no_name].
  destruct (form !! "_id") as [id|] eqn:Hid;
    [|by rewrite loop_body_no_id].
  rewrite (loop_body_unfold _ _ name id) by done.
  destruct (bool_decide _); [done|]. cbn [fst snd forallb].
  apply (forallb_weaken quiet); [apply quiet_no_thread_start|].
  apply transform_and_send_quiet.
Qed.

Lemma while_true_no_thread_start (fuel poll : nat) :
  loop_events (λ ev, negb (is_thread_start ev)) (turns fuel poll).
Proof.
  revert poll. induction fuel as [|fuel IH]; intros poll;
    [apply loop_events_ret|].
  cbn [while_true]. apply loop_events_bind; [|done].
  unfold iteration. apply loop_events_try_except.
  - unfold poll_cycle.
    apply loop_events_bind; [done|]. intros last.
    apply loop_events_bind; [done|]. intros new_forms.
    apply loop_events_bind;
      [|intros _; by apply loop_events_liftM, events_time_sleep].
    induction new_forms as [|form rest IHf]; [done|].
    cbn [for_forms].
    apply loop_events_bind; [apply loop_body_no_thread_start|done].
  - intros e. apply loop_events_bind; [done|].
    intros _. by apply loop_events_liftM, events_time_sleep.
Qed.

Lemma monitor_no_thread_start (fuel : nat) :
  Forall (λ ev, is_thread_start ev = false) (run_trace (monitor fuel)).
Proof.
  rewrite monitor_trace. constructor; [done|].
  apply Forall_forall. intros ev Hev%list_elem_of_In.
  pose proof (while_true_no_thread_start fuel 0 initial_state) as Hall.
  rewrite forallb_forall in Hall. apply negb_true_iff. by apply Hall.
Qed.

(** *** The handler of the loop *)

(** The handler logs and re-raises: the sleep that follows it is not
    reached, and the exception leaves the turn. *)
Lemma iteration_reraises (poll : nat) (st : LoopState) (e : PyExn) :
  (cycle poll st).2.2 = Raise e →
  turn poll st =
    ((cycle poll st).1,
     ((cycle poll st).2.1
        ++ [Log ERROR (MsgErrorIn "Error monitoring submission:" e)],
      Raise e)).
Proof.
  intros Hraise. unfold iteration, try_except_loop.
  destruct (cycle poll st) as [st1 [tr r]]. cbn in Hraise. by subst r.
Qed.

Lemma while_true_stops (fuel poll : nat) (st : LoopState) (e : PyExn) :
  (cycle poll st).2.2 = Raise e →
  turns (S fuel) poll st = turn poll st.
Proof.
  intros Hraise. cbn [while_true]. unfold mbind, Loop_bind.
  by rewrite (iteration_reraises _ _ e).
Qed.

(** An exception in the body ends [for form in new_forms]: the records
    that follow are not looked at. *)
Lemma for_forms_stops (form : Form) (rest : list Form) (st : LoopState)
    (e : PyExn) :
  (body form st).2.2 = Raise e → each (form :: rest) st = body form st.
Proof.
  cbn [for_forms]. unfold mbind, Loop_bind.
  by destruct (body form st) as [st1 [tr [[]|e']]].
Qed.

(** *** Claims on the loop *)

(** C1, on the code: when the cycle of a turn raises, the handler logs the
    error and re-raises it; the sleep of 30 seconds written after the
    handler is not reached, the exception leaves [while True] with the
    trace and the variables of the failed cycle, and no further turn is
    taken, however many the loop is given. *)
Theorem watch_loop_handler_ends_the_loop
    (fuel poll : nat) (st : LoopState) (e : PyExn)
    (Hraise : (cycle poll st).2.2 = Raise e) :
  turns (S fuel) poll st =
    ((cycle poll st).1,
     ((cycle poll st).2.1
        ++ [Log ERROR (MsgErrorIn "Error monitoring submission:" e)],
      Raise e)).
Proof.
  rewrite (while_true_stops _ _ _ e) by done. by apply iteration_reraises.
Qed.

(** C3, on the code: when the transformation or the send of a record that
    is not in the dedup set raises, the [for] loop ends there: the mark is
    the identifier of that record, not of the last record of the batch,
    and the records after it are not looked at. *)
Theorem send_failure_leaves_mark_behind
    (form : Form) (rest : list Form) (st : LoopState) (name id : PyVal)
    (e : PyExn)
    (Hname : form !! "name" = Some name) (Hid : form !! "_id" = Some id)
    (Hnew : py_str id ∉ seen_ids st)
    (Hfail : (hand_over form).2 = Raise e) :
  each (form :: rest) st =
    (mkLoopState ({[py_str id]} ∪ seen_ids st) id,
     (Log INFO (MsgProcessing (py_str name) (py_str id)) :: (hand_over form).1,
      Raise e)).
Proof.
  assert (body form st =
    (mkLoopState ({[py_str id]} ∪ seen_ids st) id,
     (Log INFO (MsgProcessing (py_str name) (py_str id)) :: (hand_over form).1,
      Raise e))) as Hbody.
  { rewrite (loop_body_unfold _ _ name id) by done.
    by rewrite bool_decide_eq_false_2, Hfail. }
  rewrite (for_forms_stops _ _ _ e); [done|]. by rewrite Hbody.
Qed.

(** C10: a record without the [name] field makes the loop body raise
    [KeyError] at its first statement: the mark and the dedup set are as
    before and nothing has been written, transformed or sent; the
    transformer, on the same record, puts the placeholder for the name.  A
    record with a name and without [_id] raises at the second statement,
    in the same way. *)
Theorem watch_loop_requires_name_and_id
    (form : Form) (st : LoopState) (Hname : form !! "name" = None) :
  body form st = (st, ([], Raise (KeyError "name")))
  ∧ dict_get "name" (customer_info_of form) = Some NA
  ∧ (∀ tr r, process_form form = (tr, Ok r) → r.1.1 = customer_info_of form)
  ∧ (∀ other : Form, is_Some (other !! "name") → other !! "_id" = None →
     body other st = (st, ([], Raise (KeyError "_id")))).
Proof.
  split; [by apply loop_body_no_name|]. split; [|split].
  - cbn. by rewrite Hname.
  - intros tr r Hr. pose proof (process_form_cases form) as Hc.
    rewrite Hr in Hc. by destruct r as [[ci fa] fn].
  - intros other. apply loop_body_no_id.
Qed.

(** C6: a record whose stringified identifier is in the dedup set is
    skipped: the loop body only advances the mark and writes nothing, so
    the record is neither transformed nor sent.  Along the whole run, for
    any number of turns, the identifiers announced by the line that
    precedes each transformation and send are pairwise distinct. *)
Theorem seen_record_is_skipped
    (fuel : nat) (form : Form) (st : LoopState) (name id : PyVal)
    (Hname : form !! "name" = Some name) (Hid : form !! "_id" = Some id)
    (Hseen : py_str id ∈ seen_ids st) :
  body form st = (mkLoopState (seen_ids st) id, ([], Ok tt))
  ∧ (∀ (new_forms : list Form) (i : string),
       i ∈ processed_ids (each new_forms st).2.1 → i ∉ seen_ids st)
  ∧ NoDup (processed_ids (run_trace (monitor fuel))).
Proof.
  split; [|split].
  - rewrite (loop_body_unfold _ _ name id) by done.
    by rewrite bool_decide_eq_true_2.
  - intros new_forms i Hi.
    by apply (for_forms_dedup_ok new_forms st) in Hi as [Hi _].
  - rewrite monitor_trace. cbn [processed_ids].
    apply (while_true_dedup_ok fuel 0 initial_state).
Qed.

End WatchLoop.

(** ** The claims on the loop, on examples *)

Lemma watch_loop_requires_name_and_id_witness :
  Sample.nameless !! "name" = None
  ∧ Sample.body Sample.accepting Sample.nameless initial_state
    = (initial_state, ([], Raise (KeyError "name"))).
Proof.
  split; [reflexivity|].
  exact (proj1 (watch_loop_requires_name_and_id
           "smtp.example.org" "secret" "forms@example.org"
           ["owner@example.org"] Sample.str_of Sample.guess Sample.accepting
           Sample.nameless initial_state eq_refl)).
Defined.

Lemma seen_record_is_skipped_witness :
  Sample.str_of (PyObjectId Sample.id1) ∈ ({[ Sample.id1 ]} : gset string)
  ∧ Sample.body Sample.accepting Sample.ann
      (mkLoopState {[ Sample.id1 ]} (PyObjectId Sample.id3))
    = (mkLoopState {[ Sample.id1 ]} (PyObjectId Sample.id1), ([], Ok tt)).
Proof.
  split; [by apply elem_of_singleton|].
  refine (proj1 (seen_record_is_skipped
           "smtp.example.org" "secret" "forms@example.org"
           ["owner@example.org"] 30 Sample.str_of Sample.guess
           Sample.accepting Sample.three_records 2
           Sample.ann (mkLoopState {[ Sample.id1 ]} (PyObjectId Sample.id3))
           (PyStr "Ann") (PyObjectId Sample.id1) eq_refl eq_refl _)).
  cbn [seen_ids Sample.str_of]. by apply elem_of_singleton.
Defined.

Lemma watch_loop_handler_ends_the_loop_witness :
  Sample.turns Sample.accepting Sample.unreachable 3 0 initial_state =
    (initial_state,
     ([Find QAll;
       Log ERROR (MsgErrorIn "Error monitoring submission:" PyMongoError)],
      Raise PyMongoError)).
Proof.
  exact (watch_loop_handler_ends_the_loop
           "smtp.example.org" "secret" "forms@example.org"
           ["owner@example.org"] 30 Sample.str_of Sample.guess
           Sample.accepting Sample.unreachable 2 0 initial_state
           PyMongoError eq_refl).
Defined.

(** The database cannot be reached at the first query:
    [monitor_new_submission] ends with the exception, without a sleep,
    whatever the number of turns it is given. *)
Lemma monitor_ends_when_database_is_unreachable (fuel : nat) :
  Sample.run Sample.accepting Sample.unreachable (S fuel) =
    ([Log INFO MsgMonitoring; Find QAll;
      Log ERROR (MsgErrorIn "Error monitoring submission:" PyMongoError)],
     initial_state, Terminated PyMongoError).
Proof. reflexivity. Qed.

(** C2, on the code: the loop calls [send_email] itself.  No run of
    [monitor_new_submission], in any environment, starts a thread; with
    one record in the collection the calls to the mail server are in the
    sequence of the loop, between the line that announces the record and
    the sleep that ends the cycle; and when the server refuses the message
    the exception ends the loop. *)
Theorem watch_loop_sends_inline
    (SMTP_SERVER EMAIL_PASSWORD EMAIL_ADDRESS : string)
    (RECIPIENT_EMAILS : list string) (POLLING_INTERVAL : Z)
    (py_str : PyVal → string)
    (guess_type : PyVal → Result (option string))
    (smtp : Email → SmtpOutcome)
    (collection : nat → Query → Result (list Form)) (fuel : nat) :
  Forall (λ ev, is_thread_start ev = false)
    (run_trace (monitor_new_submission SMTP_SERVER EMAIL_PASSWORD
       EMAIL_ADDRESS RECIPIENT_EMAILS POLLING_INTERVAL py_str guess_type
       smtp collection fuel))
  ∧ (∃ msg,
       run_trace (Sample.run Sample.accepting Sample.one_record 1) =
         [Log INFO MsgMonitoring; Find QAll;
          Log INFO (MsgProcessing "Ann" Sample.id1);
          Smtp (Connect "smtp.example.org" 465); Smtp Starttls;
          Smtp (Login "forms@example.org" "secret"); Smtp (SendMessage msg);
          Log INFO MsgEmailSent; Smtp Close; Sleep 30])
  ∧ run_outcome (Sample.run (Sample.refusing "Ann") Sample.one_record (S fuel))
    = Terminated SMTPException.
Proof.
  split; [apply monitor_no_thread_start|]. split; [|reflexivity].
  by eexists.
Qed.

Lemma send_failure_leaves_mark_behind_witness :
(Sample.str_of (PyObjectId Sample.id1) ∉ seen_ids initial_state)
  ∧ Sample.each (Sample.refusing "Ann")
      [Sample.ann; Sample.bob; Sample.cyd] initial_state =
    (mkLoopState ({[ Sample.id1 ]} ∪ ∅) (PyObjectId Sample.id1),
     (Log INFO (MsgProcessing "Ann" Sample.id1)
        :: (transform_and_send
              "smtp.example.org" "secret" "forms@example.org"
              ["owner@example.org"] Sample.str_of Sample.guess
              (Sample.refusing "Ann") Sample.ann).1,
      Raise SMTPException)).
Proof.
  split; [apply not_elem_of_empty|].
  exact (send_failure_leaves_mark_behind
           "smtp.example.org" "secret" "forms@example.org"
           ["owner@example.org"] Sample.str_of Sample.guess
           (Sample.refusing "Ann") Sample.ann [Sample.bob; Sample.cyd]
           initial_state (PyStr "Ann") (PyObjectId Sample.id1) SMTPException
           eq_refl eq_refl (not_elem_of_empty _) eq_refl).
Defined.

(** Three records with increasing identifiers, and a mail server that
    refuses the message of the first: the mark stays at the identifier of
    the first record, the other two are not looked at, and the loop ends. *)
Lemma monitor_mark_after_refused_first_record (fuel : nat) :
  let r := Sample.run (Sample.refusing "Ann") Sample.three_records (S fuel) in
  last_checked_id (run_state r) = PyObjectId Sample.id1
  ∧ processed_ids (run_trace r) = [Sample.id1]
  ∧ run_outcome r = Terminated SMTPException.
Proof. repeat split; reflexivity. Qed.

(** C5, on the code: three records, and a mail server that refuses the
    message of the second at [send_message].  The first record is sent,
    the second is announced and its send raises, and the third is never
    announced, transformed or sent; the mark is the identifier of the
    second record and the loop ends with the exception. *)
Theorem send_failure_stops_the_cycle (fuel : nat) :
  let r := Sample.run (Sample.refusing "Bob") Sample.three_records (S fuel) in
  processed_ids (run_trace r) = [Sample.id1; Sample.id2]
  ∧ last_checked_id (run_state r) = PyObjectId Sample.id2
  ∧ run_outcome r = Terminated SMTPException
  ∧ last (run_trace r)
    = Some (Log ERROR (MsgErrorIn "Error monitoring submission:" SMTPException)).
Proof. repeat split; reflexivity. Qed.

(** * Further properties *)

(** ** Counting events *)

Lemma count_events_app (P : Event → bool) (tr1 tr2 : list Event) :
  count_events P (tr1 ++ tr2) = (count_events P tr1 + count_events P tr2)%nat.
Proof. unfold count_events. by rewrite List.filter_app, length_app. Qed.

Lemma count_events_none (P Q : Event → bool) (tr : list Event) :
  (∀ ev, Q ev = true → P ev = false) →
  forallb Q tr = true → count_events P tr = 0%nat.
Proof.
  intros HPQ. induction tr as [|ev tr IH]; [done|].
  cbn [forallb]. intros [Hev Htr]%andb_prop.
  unfold count_events in *. cbn [List.filter]. rewrite (HPQ _ Hev).
  by apply IH.
Qed.

Lemma count_smtp_in_lines (P : Event → bool) (tr : list Event) :
  (∀ ev, P ev = true → is_smtp ev = true) →
  forallb is_warning_or_error tr = true → count_events P tr = 0%nat.
Proof.
  intros HP. apply count_events_none. intros ev Hev.
  destruct (P ev) eqn:HPev; [|done]. apply HP in HPev.
  by destruct ev as [[]| | | |].
Qed.

Lemma is_connect_smtp (ev : Event) : is_connect ev = true → is_smtp ev = true.
Proof. by destruct ev. Qed.

Lemma is_send_message_smtp (ev : Event) :
  is_send_message ev = true → is_smtp ev = true.
Proof. by destruct ev. Qed.

Lemma is_close_smtp (ev : Event) : is_close ev = true → is_smtp ev = true.
Proof. by destruct ev. Qed.

Ltac count_lines Hpre Hpost :=
  rewrite !count_events_app;
  rewrite ?(count_smtp_in_lines _ _ is_connect_smtp Hpre),
          ?(count_smtp_in_lines _ _ is_send_message_smtp Hpre),
          ?(count_smtp_in_lines _ _ is_close_smtp Hpre),
          ?(count_smtp_in_lines _ _ is_connect_smtp Hpost),
          ?(count_smtp_in_lines _ _ is_send_message_smtp Hpost),
          ?(count_smtp_in_lines _ _ is_close_smtp Hpost).

Lemma not_in_lines (P : Event → bool) (ev : Event) (tr : list Event) :
  forallb P tr = true → P ev = false → ev ∉ tr.
Proof.
  intros Hall Hev Hin%list_elem_of_In.
  rewrite forallb_forall in Hall. apply Hall in Hin. congruence.
Qed.

Lemma process_form_no_smtp (form : Form) :
  events (λ ev, negb (is_smtp ev)) (process_form form).
Proof.
  unfold process_form.
  destruct (form !! "uploadedFile") as [v|]; [|done].
  destruct (truthy v); [|done].
  apply events_bind; [apply events_lift|]. intros file_data.
  apply events_bind; [apply events_lift|]. intros file_name.
  by destruct (_ && _).
Qed.

(** ** The notifier, by cases *)

Section NotifierCases.

Context (SMTP_SERVER EMAIL_PASSWORD EMAIL_ADDRESS : string)
        (RECIPIENT_EMAILS : list string)
        (py_str : PyVal → string)
        (guess_type : PyVal → Result (option string))
        (smtp : Email → SmtpOutcome).

#[local] Abbreviation send :=
  (send_email SMTP_SERVER EMAIL_PASSWORD EMAIL_ADDRESS RECIPIENT_EMAILS
              py_str guess_type smtp).
#[local] Abbreviation send_try :=
  (send_email_try SMTP_SERVER EMAIL_PASSWORD EMAIL_ADDRESS RECIPIENT_EMAILS
                  py_str guess_type smtp).
#[local] Abbreviation session :=
  (deliver SMTP_SERVER EMAIL_PASSWORD EMAIL_ADDRESS smtp).
#[local] Abbreviation plain_message :=
  (base_message EMAIL_ADDRESS RECIPIENT_EMAILS py_str).
#[local] Abbreviation hand_over :=
  (transform_and_send SMTP_SERVER EMAIL_PASSWORD EMAIL_ADDRESS
                      RECIPIENT_EMAILS py_str guess_type smtp).
#[local] Abbreviation may_send :=
  (sendable EMAIL_ADDRESS RECIPIENT_EMAILS py_str guess_type).
#[local] Abbreviation shape :=
  (send_shape SMTP_SERVER EMAIL_PASSWORD EMAIL_ADDRESS RECIPIENT_EMAILS
              py_str guess_type smtp).

Lemma send_email_except_eq (e : PyExn) :
  send_email_except e
  = ([Log ERROR (MsgErrorIn (except_context e) e)], Raise e).
Proof. by destruct e. Qed.

Lemma send_email_unfold_except td fd fn :
  send td fd fn =
    match send_try td fd fn with
    | (tr, Ok a) => (tr, Ok a)
    | (tr, Raise e) =>
        (tr ++ [Log ERROR (MsgErrorIn (except_context e) e)], Raise e)
    end.
Proof.
  unfold send_email. destruct (send_try td fd fn) as [tr [a|e]]; [done|].
  cbn. by rewrite send_email_except_eq.
Qed.

(** The session with the mail server, by what the server does. *)
Lemma deliver_cases (msg : Email) :
  session msg =
    match smtp msg with
    | Accepted =>
        ([Smtp (Connect SMTP_SERVER SMTP_PORT); Smtp Starttls;
          Smtp (Login EMAIL_ADDRESS EMAIL_PASSWORD); Smtp (SendMessage msg);
          Log INFO MsgEmailSent; Smtp Close], Ok tt)
    | FailsAt AtConnect e => ([Smtp (Connect SMTP_SERVER SMTP_PORT)], Raise e)
    | FailsAt AtStarttls e =>
        ([Smtp (Connect SMTP_SERVER SMTP_PORT); Smtp Starttls; Smtp Close],
         Raise e)
    | FailsAt AtLogin e =>
        ([Smtp (Connect SMTP_SERVER SMTP_PORT); Smtp Starttls;
          Smtp (Login EMAIL_ADDRESS EMAIL_PASSWORD); Smtp Close], Raise e)
    | FailsAt AtSendMessage e =>
        ([Smtp (Connect SMTP_SERVER SMTP_PORT); Smtp Starttls;
          Smtp (Login EMAIL_ADDRESS EMAIL_PASSWORD); Smtp (SendMessage msg);
          Smtp Close], Raise e)
    | QuitRefused =>
        ([Smtp (Connect SMTP_SERVER SMTP_PORT); Smtp Starttls;
          Smtp (Login EMAIL_ADDRESS EMAIL_PASSWORD); Smtp (SendMessage msg);
          Log INFO MsgEmailSent; Smtp Close], Raise SMTPException)
    end.
Proof.
  unfold deliver, smtp_call, smtp_exit. by destruct (smtp msg) as [|[] e|].
Qed.

(** The body of the [try], by cases. *)
Lemma send_email_try_cases td fd fn :
  (truthy fd && truthy fn = false
   ∧ send_try td fd fn = session (plain_message td))
  ∨ (truthy fd = true ∧ truthy fn = true ∧
     ((∃ e, py_len fd = Raise e ∧ send_try td fd fn = ([], Raise e))
      ∨ ∃ n, py_len fd = Ok n ∧
        ((MAX_FILE_SIZE < n ∧
          send_try td fd fn =
            (logging WARNING (MsgSizeLimit fn);; session (plain_message td)))
         ∨ (n ≤ MAX_FILE_SIZE ∧
            ((∃ e, guess_type fn = Raise e ∧ send_try td fd fn = ([], Raise e))
             ∨ ∃ mt, guess_type fn = Ok mt ∧
               ((split_slash (mime_or_default mt) = None
                 ∧ send_try td fd fn = ([], Raise ValueError))
                ∨ ∃ main sub,
                    split_slash (mime_or_default mt) = Some (main, sub) ∧
                    ((mime_allowed mt = false ∧
                      send_try td fd fn =
                        ([Log WARNING (MsgUnsupportedType mt)], Ok tt))
                     ∨ (∃ t, mt = Some t ∧ t ∈ ALLOWED_MIME_TYPES ∧
                        split_slash t = Some (main, sub) ∧
                        ((∃ e, encode_base64 fd = Raise e
                               ∧ send_try td fd fn = ([], Raise e))
                         ∨ (encode_base64 fd = Ok tt ∧
                            send_try td fd fn =
                              session (attach (plain_message td)
                                         (file_part main sub fd fn)))))))))))).
Proof.
  unfold send_email_try.
  destruct (truthy fd) eqn:Hd; [|by left].
  destruct (truthy fn) eqn:Hn; [|by left].
  right. split; [done|]. split; [done|]. cbn [andb].
  destruct (py_len fd) as [n|e]; [right|left; by exists e].
  exists n. split; [done|]. rewrite bind_lift_Ok.
  destruct (n >? MAX_FILE_SIZE) eqn:Hn'.
  { left. split; [|done]. by apply Z.gtb_lt. }
  right. split; [rewrite Z.gtb_ltb in Hn'; by apply Z.ltb_ge|].
  destruct (guess_type fn) as [mt|e]; [right|left; by exists e].
  exists mt. split; [done|]. rewrite bind_lift_Ok. unfold unpack_type.
  destruct (split_slash _) as [[main sub]|] eqn:Hs; [right|by left].
  exists main, sub. split; [done|]. rewrite bind_lift_Ok.
  destruct (mime_allowed mt) eqn:Ha; [right|by left].
  destruct mt as [t|]; [|done]. exists t. split; [done|].
  apply bool_decide_eq_true in Ha. split; [done|].
  split.
  { revert Hs. cbn [mime_or_default]. destruct (String.eqb_spec t "");
      [|done]. subst t. exfalso. revert Ha.
    change ("" ∉ ALLOWED_MIME_TYPES). apply (bool_decide_unpack _).
    by vm_compute. }
  cbn [negb]. destruct (encode_base64 fd) as [[]|e]; [right|left; by exists e].
  by rewrite bind_lift_Ok.
Qed.

Lemma send_shape_session td fd fn pre msg :
  forallb is_warning_or_error pre = true → may_send td fd fn msg →
  send_try td fd fn = (pre ++ (session msg).1, (session msg).2) →
  shape td fd fn.
Proof.
  intros Hpre Hmsg Htry. unfold send_shape. cbn zeta.
  rewrite send_email_unfold_except, Htry.
  destruct ((session msg).2) as [[]|e] eqn:Hr.
  - exists pre, []. split; [done|]. split; [done|]. right. exists msg.
    cbn zeta. by rewrite app_nil_r, Hr.
  - exists pre, [Log ERROR (MsgErrorIn (except_context e) e)].
    split; [done|]. split; [done|]. right. exists msg.
    cbn zeta. cbn [fst snd]. by rewrite app_assoc, Hr.
Qed.

Lemma send_shape_quiet td fd fn tr r :
  send_try td fd fn = (tr, r) →
  forallb is_warning_or_error tr = true → shape td fd fn.
Proof.
  intros Htry Htr. unfold send_shape. cbn zeta.
  rewrite send_email_unfold_except, Htry.
  destruct r as [[]|e].
  - exists tr, []. rewrite app_nil_r. by eauto.
  - exists tr, [Log ERROR (MsgErrorIn (except_context e) e)]. by eauto.
Qed.

Lemma send_email_shape td fd fn : shape td fd fn.
Proof.
  destruct (send_email_try_cases td fd fn)
    as [[_ H] | (Hd & Hn & [(e & _ & H) | (n & Hlen & [[_ H] | [Hle
         [(e & _ & H) | (mt & Hg & [[_ H] | (main & sub & _ &
            [[_ H] | (t & -> & Ht & Hs & [(e & _ & H) | [_ H]])])])]]])])].
  - apply (send_shape_session _ _ _ [] (plain_message td)); [done|by left|].
    rewrite H. by destruct (session _).
  - by apply (send_shape_quiet _ _ _ _ _ H).
  - apply (send_shape_session _ _ _ [Log WARNING (MsgSizeLimit fn)]
             (plain_message td)); [done|by left|].
    rewrite H. unfold logging. by rewrite bind_emit.
  - by apply (send_shape_quiet _ _ _ _ _ H).
  - by apply (send_shape_quiet _ _ _ _ _ H).
  - by apply (send_shape_quiet _ _ _ _ _ H).
  - by apply (send_shape_quiet _ _ _ _ _ H).
  - apply (send_shape_session _ _ _ []
             (attach (plain_message td) (file_part main sub fd fn)));
      [done| |rewrite H; by destruct (session _)].
    right. exists main, sub. split; [|done].
    split; [done|]. split; [done|]. by exists n, t.
Qed.

Lemma sent_message_sendable td fd fn msg :
  Smtp (SendMessage msg) ∈ (send td fd fn).1 → may_send td fd fn msg.
Proof.
  destruct (send_email_shape td fd fn)
    as (pre & post & Hpre & Hpost & [-> | (m & Hm & -> & _)]).
  - intros [Hin|Hin]%elem_of_app;
      by eapply not_in_lines in Hin.
  - intros [Hin|[Hin|Hin]%elem_of_app]%elem_of_app;
      [by eapply not_in_lines in Hin| |by eapply not_in_lines in Hin].
    rewrite deliver_cases in Hin.
    destruct (smtp m) as [|[] e|]; cbn in Hin;
      repeat (apply elem_of_cons in Hin as [Hin|Hin]; [try done|]);
      try (by apply elem_of_nil in Hin); by injection Hin as ->.
Qed.

(** *** What [send_email] does and never does *)


(** X2: a file is attached only when both the payload and the name are
    true values: with either of them [None] or empty, [send_email] does
    what it does without a file, with no warning. *)
Theorem send_email_needs_payload_and_name td fd fn
    (Hmissing : truthy fd && truthy fn = false) :
  send td fd fn = send td PyNone PyNone.
Proof. unfold send_email, send_email_try. by rewrite Hmissing. Qed.

(** X3: every message [send_email] hands to the mail server is the
    message with the text part alone, or that message with the file, and
    then the payload and the name are true values, the payload is not
    longer than the ceiling and the type guessed from the name is in the
    allow-list. *)
Theorem send_email_sends_only_checked_messages td fd fn msg
    (Hsent : Smtp (SendMessage msg) ∈ (send td fd fn).1) :
  msg = plain_message td
  ∨ ∃ n t main sub,
      truthy fd = true ∧ truthy fn = true
      ∧ py_len fd = Ok n ∧ n ≤ MAX_FILE_SIZE
      ∧ guess_type fn = Ok (Some t) ∧ t ∈ ALLOWED_MIME_TYPES
      ∧ split_slash t = Some (main, sub)
      ∧ msg = attach (plain_message td) (file_part main sub fd fn).
Proof.
  apply sent_message_sendable in Hsent
    as [-> | (main & sub & (Hd & Hn & n & t & Hlen & Hle & Hg & Ht & Hs) & ->)];
    [by left|right].
  exists n, t, main, sub. by repeat split.
Qed.

(** X4: one call of [send_email] opens at most one connection and sends
    at most one message, on that connection. *)
Theorem send_email_at_most_one_message td fd fn :
  (count_events is_send_message (send td fd fn).1
     ≤ count_events is_connect (send td fd fn).1)%nat
  ∧ (count_events is_connect (send td fd fn).1 ≤ 1)%nat.
Proof.
  destruct (send_email_shape td fd fn)
    as (pre & post & Hpre & Hpost & [-> | (m & Hm & -> & _)]);
    count_lines Hpre Hpost; [cbn; lia|].
  rewrite deliver_cases. destruct (smtp m) as [|[] e|]; cbn; lia.
Qed.

Lemma send_email_raise_last td fd fn e :
  (send td fd fn).2 = Raise e →
  last (send td fd fn).1 = Some (Log ERROR (MsgErrorIn (except_context e) e)).
Proof.
  rewrite send_email_unfold_except.
  destruct (send_try td fd fn) as [tr [[]|e']]; [done|].
  cbn. intros [= ->]. by rewrite last_snoc.
Qed.

(** X5: the line "Email sent" is in the log of a call exactly when a
    message was handed to the server in that call and [send_message]
    returned, that is, the server accepted the session or refused only
    the QUIT at the exit of the [with] block.  The call then returns, or,
    when the QUIT was refused, raises [SMTPException] after the error line
    "SMTP error occurred"; a message whose whole session the server
    accepts makes the call return. *)
Theorem email_sent_line_means_accepted td fd fn :
  (Log INFO MsgEmailSent ∈ trace (send td fd fn)
   ↔ ∃ msg, Smtp (SendMessage msg) ∈ trace (send td fd fn)
            ∧ (smtp msg = Accepted ∨ smtp msg = QuitRefused))
  ∧ (Log INFO MsgEmailSent ∈ trace (send td fd fn) →
     outcome (send td fd fn) = Ok tt
     ∨ (outcome (send td fd fn) = Raise SMTPException
        ∧ last (trace (send td fd fn))
          = Some (Log ERROR (MsgErrorIn "SMTP error occurred" SMTPException))))
  ∧ (∀ msg, Smtp (SendMessage msg) ∈ trace (send td fd fn) →
            smtp msg = Accepted → outcome (send td fd fn) = Ok tt).
Proof.
  unfold trace, outcome.
  pose proof (send_email_raise_last td fd fn SMTPException) as Hlast.
  destruct (send_email_shape td fd fn)
    as (pre & post & Hpre & Hpost & [Htr | (m & Hm & Htr & Hout)]);
    rewrite Htr in *; clear Htr.
  - split; [split|split].
    + intros [Hin|Hin]%elem_of_app; by eapply not_in_lines in Hin.
    + intros (msg & [Hin|Hin]%elem_of_app & _);
        by eapply not_in_lines in Hin.
    + intros [Hin|Hin]%elem_of_app; by eapply not_in_lines in Hin.
    + intros msg [Hin|Hin]%elem_of_app; by eapply not_in_lines in Hin.
  - rewrite Hout in *. clear Hout.
    assert (∀ ev, is_warning_or_error ev = false →
              ev ∈ pre ++ (session m).1 ++ post ↔ ev ∈ (session m).1) as Hmid.
    { intros ev Hev. split.
      - intros [Hin|[Hin|Hin]%elem_of_app]%elem_of_app;
          [by eapply not_in_lines in Hin|done|by eapply not_in_lines in Hin].
      - intros Hin. apply elem_of_app. right. apply elem_of_app. by left. }
    rewrite !(Hmid (Log INFO MsgEmailSent) eq_refl).
    assert (∀ msg, Smtp (SendMessage msg) ∈ (session m).1 → msg = m) as Hsame.
    { intros msg. rewrite deliver_cases.
      destruct (smtp m) as [|[] e|]; cbn; rewrite ?elem_of_cons, elem_of_nil;
        intros Hin; repeat destruct Hin as [Hin|Hin]; by simplify_eq. }
    split; [split|split].
    + intros Hin. exists m. rewrite (Hmid (Smtp (SendMessage m)) eq_refl).
      revert Hin. rewrite deliver_cases.
      destruct (smtp m) as [|[] e|]; cbn; rewrite ?elem_of_cons, elem_of_nil;
        intros Hin; repeat destruct Hin as [Hin|Hin]; try done; tauto.
    + intros (msg & Hin & Hacc).
      rewrite (Hmid (Smtp (SendMessage msg)) eq_refl) in Hin.
      apply Hsame in Hin as ->. rewrite deliver_cases.
      destruct Hacc as [-> | ->]; cbn; rewrite !elem_of_cons; tauto.
    + revert Hlast. rewrite !deliver_cases.
      destruct (smtp m) as [|[] e|]; cbn [fst snd]; intros Hlast;
        rewrite ?elem_of_cons, elem_of_nil;
        intros Hin; repeat destruct Hin as [Hin|Hin]; try done.
      * by left.
      * right. split; [done|]. by apply Hlast.
    + intros msg Hin Hacc.
      rewrite (Hmid (Smtp (SendMessage msg)) eq_refl) in Hin.
      apply Hsame in Hin as ->. by rewrite deliver_cases, Hacc.
Qed.

(** X6: when the server does not fail at the connect, every connection
    that [send_email] opens is closed, whichever later call fails. *)
Theorem send_email_closes_its_connection td fd fn
    (Hconnects : ∀ msg e, smtp msg ≠ FailsAt AtConnect e) :
  count_events is_close (send td fd fn).1
  = count_events is_connect (send td fd fn).1.
Proof.
  destruct (send_email_shape td fd fn)
    as (pre & post & Hpre & Hpost & [-> | (m & Hm & -> & _)]);
    count_lines Hpre Hpost; [done|].
  rewrite deliver_cases. specialize (Hconnects m).
  destruct (smtp m) as [|[] e|]; cbn; try done. by destruct (Hconnects e).
Qed.

(** X7: a payload that is a true value and has no length (a number, an
    identifier) makes [len] raise inside the [try]: the error is logged
    under "Error sending email", [TypeError] is raised again, and the mail
    server is not called. *)
Theorem send_email_unsized_payload td fd fn e
    (Hdata : truthy fd = true) (Hname : truthy fn = true)
    (Hlen : py_len fd = Raise e) :
  send td fd fn =
    ([Log ERROR (MsgErrorIn "Error sending email" TypeError)],
     Raise TypeError).
Proof.
  assert (e = TypeError) as -> by (by destruct fd; cbn in Hlen; simplify_eq).
  rewrite send_email_unfold_except. unfold send_email_try.
  by rewrite Hdata, Hname, Hlen.
Qed.

(** X8: whatever the record, a message that goes out for it is from the
    configured address to the configured recipients joined by ", ", with
    the fixed subject; its first part is the text with one "key: value"
    line for each of the eight declared fields other than [uploadedFile],
    in the declared order, with "N/A" for a missing field; and at most one
    more part follows. *)
Theorem transform_and_send_message (form : Form) (msg : Email)
    (Hsent : Smtp (SendMessage msg) ∈ (hand_over form).1) :
  msg_from msg = EMAIL_ADDRESS
  ∧ msg_to msg = String.concat ", " RECIPIENT_EMAILS
  ∧ msg_subject msg = "New Customer Submission"
  ∧ (∃ file_parts,
       msg_parts msg =
         TextPart
           (String.concat newline
              (map (λ key, key +:+ ": " +:+ py_str (default NA (form !! key)))
                 ["name"; "email"; "phone"; "communicationMethod";
                  "contactTime"; "projectType"; "projectDescription";
                  "createdAt"])%string)
           "plain" :: file_parts
       ∧ (length file_parts ≤ 1)%nat).
Proof.
  revert Hsent. unfold transform_and_send.
  pose proof (process_form_cases form) as Hc.
  pose proof (process_form_no_smtp form) as Hq. unfold events in Hq.
  destruct (process_form form) as [tr [[[ci fa] fn]|e]]; cbn [fst] in *.
  - subst ci. rewrite bind_Ok. cbn [fst].
    intros [Hin|Hin]%elem_of_app.
    { eapply not_in_lines in Hin; done. }
    apply sent_message_sendable in Hin as [-> | (main & sub & _ & ->)].
    + do 3 (split; [done|]). exists []. split; [reflexivity|cbn; lia].
    + do 3 (split; [done|]). eexists [_]. split; [reflexivity|cbn; lia].
  - intros Hin. eapply not_in_lines in Hin; done.
Qed.

End NotifierCases.

(** X9: the split of the guessed type at its first slash loses nothing:
    when it succeeds, the two names joined by a slash are the type and the
    first has no slash; it fails only on a type without a slash. *)
Theorem split_slash_join (s : string) :
  match split_slash s with
  | Some (a, b) =>
      s = (a +:+ "/" +:+ b)%string
      ∧ "/"%char ∉ String.list_ascii_of_string a
  | None => "/"%char ∉ String.list_ascii_of_string s
  end.
Proof.
  induction s as [|c s IH]; [by intros ?%elem_of_nil|].
  cbn [split_slash]. destruct (Ascii.eqb_spec c "/") as [->|Hc].
  - split; [done|]. by intros ?%elem_of_nil.
  - destruct (split_slash s) as [[a b]|].
    + destruct IH as [-> Ha]. split; [done|].
      cbn. by intros [?|?]%elem_of_cons.
    + cbn. by intros [?|?]%elem_of_cons.
Qed.

(** ** The transformer, further *)

(** X10: a file sub-object with a true payload and a true filename goes
    through unchanged, with no log line. *)
Theorem process_form_valid_file (form : Form) (d : gmap string PyVal)
    (Hup : form !! "uploadedFile" = Some (PyDict d))
    (Hdata : truthy (file_data_of d) = true)
    (Hname : truthy (file_name_of d) = true) :
  process_form form =
    ([], Ok (customer_info_of form, file_data_of d, file_name_of d)).
Proof.
  unfold process_form. rewrite Hup.
  assert (d ≠ ∅) as Hd%truthy_dict.
  { intros ->. unfold file_data_of in Hdata. by rewrite lookup_empty in Hdata. }
  rewrite Hd. cbn [py_get]. rewrite !bind_lift_Ok.
  fold (file_data_of d) (file_name_of d). by rewrite Hdata, Hname.
Qed.

(** X11: [process_form] writes at most one log line, and the payload it
    returns is [None] or a true value that comes with a true name, both
    taken from the file sub-object of the record, and then no line is
    written; when it raises it has written nothing. *)
Theorem process_form_attachment_invariant (form : Form) :
  (length (process_form form).1 ≤ 1)%nat
  ∧ match (process_form form).2 with
    | Ok (_, file_attachment, file_name) =>
        file_attachment = PyNone
        ∨ (truthy file_attachment = true ∧ truthy file_name = true
           ∧ (process_form form).1 = []
           ∧ ∃ d, form !! "uploadedFile" = Some (PyDict d)
                  ∧ file_attachment = file_data_of d
                  ∧ file_name = file_name_of d)
    | Raise _ => (process_form form).1 = []
    end.
Proof.
  unfold process_form.
  destruct (form !! "uploadedFile") as [v|] eqn:Hv;
    [|split; [cbn; lia|by left]].
  destruct (truthy v) eqn:Ht; [|split; [cbn; lia|by left]].
  destruct v; try (split; [cbn; lia|done]).
  cbn [py_get]. rewrite !bind_lift_Ok.
  fold (file_data_of d) (file_name_of d).
  destruct (truthy (file_data_of d)) eqn:Hd;
    [destruct (truthy (file_name_of d)) eqn:Hn|];
    cbn; (split; [lia|]); try by left.
  right. do 3 (split; [done|]). by exists d.
Qed.

(** X12: [process_form] raises exactly on a record whose [uploadedFile]
    is a true value that is not a mapping (a string, a number), and what
    it raises is [AttributeError], before any log line. *)
Theorem process_form_raises_on_ill_typed_file (form : Form) :
  (∀ e, (process_form form).2 = Raise e →
        process_form form = ([], Raise AttributeError))
  ∧ (process_form form = ([], Raise AttributeError)
     ↔ ∃ v, form !! "uploadedFile" = Some v ∧ truthy v = true
            ∧ ∀ d, v ≠ PyDict d).
Proof.
  assert ((∃ v, form !! "uploadedFile" = Some v ∧ truthy v = true
                ∧ ∀ d, v ≠ PyDict d)
          → process_form form = ([], Raise AttributeError)) as Hback.
  { intros (v & Hv & Ht & Hnd). unfold process_form. rewrite Hv, Ht.
    destruct v; try done. by destruct (Hnd d). }
  assert (∀ e, (process_form form).2 = Raise e →
    ∃ v, form !! "uploadedFile" = Some v ∧ truthy v = true
         ∧ ∀ d, v ≠ PyDict d) as Hforth.
  { intros e He. pose proof (process_form_cases form) as Hc.
    destruct (process_form form) as [tr [r|e']]; [done|]. by destruct Hc. }
  split; [intros e He; by eauto|]. split; [|done].
  intros Heq. apply (Hforth AttributeError). by rewrite Heq.
Qed.

(** ** The recipient list *)

(** X13: the recipient list is never empty, its pieces hold no comma, and
    joined by commas they give back the value of the variable; without the
    variable the program stops at its start with [AttributeError]. *)
Theorem recipient_list_round_trip (s : string) :
  load_recipient_emails None = Raise AttributeError
  ∧ ∃ first others,
      load_recipient_emails (Some s) = Ok (first :: others)
      ∧ String.concat "," (first :: others) = s
      ∧ Forall (λ piece, ","%char ∉ String.list_ascii_of_string piece)
               (first :: others).
Proof.
  split; [done|]. cbn [load_recipient_emails].
  induction s as [|c s (first & others & [= IH] & Hjoin & Hfree)].
  - exists EmptyString, []. do 2 (split; [done|]).
    constructor; [|constructor]. by intros ?%elem_of_nil.
  - cbn [split_comma]. rewrite IH. destruct (Ascii.eqb_spec c ",") as [->|Hc].
    + exists EmptyString, (first :: others).
      split; [done|]. split; [by rewrite <- Hjoin|].
      constructor; [by intros ?%elem_of_nil|done].
    + exists (String c first), others. split; [done|]. split.
      * rewrite <- Hjoin. by destruct others.
      * apply Forall_cons in Hfree as [Hfirst Hothers].
        constructor; [|done]. cbn. by intros [?|?]%elem_of_cons.
Qed.

(** ** The watch loop, further *)

Lemma seen_exact_silent {A} (c : Loop A) :
  (∀ st, seen_ids (c st).1 = seen_ids st ∧ processed_ids (c st).2.1 = []) →
  seen_exact c.
Proof.
  intros H st. destruct (H st) as [-> ->]. cbn. by rewrite (left_id_L ∅ (∪)).
Qed.

Lemma seen_exact_bind {A B} (c : Loop A) (f : A → Loop B) :
  seen_exact c → (∀ a, seen_exact (f a)) → seen_exact (c ≫= f).
Proof.
  intros Hc Hf st. specialize (Hc st). unfold mbind, Loop_bind.
  destruct (c st) as [st1 [tr [a|e]]]; cbn [fst snd] in *; [|done].
  specialize (Hf a st1). destruct (f a st1) as [st2 [tr' r]].
  cbn [fst snd] in *. rewrite processed_ids_app, list_to_set_app_L, Hf, Hc.
  by rewrite (assoc_L (∪)),
    (comm_L (∪) (list_to_set (processed_ids tr')) (list_to_set (processed_ids tr))).
Qed.

Lemma seen_exact_try_except {A} (c : Loop A) (h : PyExn → Loop A) :
  seen_exact c → (∀ e, seen_exact (h e)) → seen_exact (try_except_loop c h).
Proof.
  intros Hc Hh st. specialize (Hc st). unfold try_except_loop.
  destruct (c st) as [st1 [tr [a|e]]]; cbn [fst snd] in *; [done|].
  specialize (Hh e st1). destruct (h e st1) as [st2 [tr' r]].
  cbn [fst snd] in *. rewrite processed_ids_app, list_to_set_app_L, Hh, Hc.
  by rewrite (assoc_L (∪)),
    (comm_L (∪) (list_to_set (processed_ids tr')) (list_to_set (processed_ids tr))).
Qed.

Lemma time_sleep_trace (secs : Z) : (time_sleep secs).1 = [Sleep secs].
Proof.
  unfold time_sleep. rewrite bind_emit. by destruct (_ || _), (secs <? 0).
Qed.

Lemma time_sleep_in_range (secs : Z) :
  0 ≤ secs ≤ SLEEP_MAX → time_sleep secs = ([Sleep secs], Ok tt).
Proof.
  intros Hsecs. unfold time_sleep.
  replace (secs <? - SLEEP_MAX) with false
    by (symmetry; apply Z.ltb_ge; unfold SLEEP_MAX in *; lia).
  replace (SLEEP_MAX <? secs) with false by (symmetry; apply Z.ltb_ge; lia).
  by replace (secs <? 0) with false by (symmetry; apply Z.ltb_ge; lia).
Qed.

Lemma time_sleep_negative (secs : Z) :
  - SLEEP_MAX ≤ secs < 0 → time_sleep secs = ([Sleep secs], Raise ValueError).
Proof.
  intros Hsecs. unfold time_sleep.
  replace (secs <? - SLEEP_MAX) with false by (symmetry; apply Z.ltb_ge; lia).
  replace (SLEEP_MAX <? secs) with false
    by (symmetry; apply Z.ltb_ge; unfold SLEEP_MAX in *; lia).
  by replace (secs <? 0) with true by (symmetry; apply Z.ltb_lt; lia).
Qed.

Section LoopFurther.

Context (SMTP_SERVER EMAIL_PASSWORD EMAIL_ADDRESS : string)
        (RECIPIENT_EMAILS : list string)
        (POLLING_INTERVAL : Z)
        (py_str : PyVal → string)
        (guess_type : PyVal → Result (option string))
        (smtp : Email → SmtpOutcome)
        (collection : nat → Query → Result (list Form)).

#[local] Abbreviation hand_over :=
  (transform_and_send SMTP_SERVER EMAIL_PASSWORD EMAIL_ADDRESS
                      RECIPIENT_EMAILS py_str guess_type smtp).
#[local] Abbreviation body :=
  (loop_body SMTP_SERVER EMAIL_PASSWORD EMAIL_ADDRESS RECIPIENT_EMAILS
             py_str guess_type smtp).
#[local] Abbreviation each :=
  (for_forms SMTP_SERVER EMAIL_PASSWORD EMAIL_ADDRESS RECIPIENT_EMAILS
             py_str guess_type smtp).
#[local] Abbreviation cycle :=
  (poll_cycle SMTP_SERVER EMAIL_PASSWORD EMAIL_ADDRESS RECIPIENT_EMAILS
              POLLING_INTERVAL py_str guess_type smtp collection).
#[local] Abbreviation turn :=
  (iteration SMTP_SERVER EMAIL_PASSWORD EMAIL_ADDRESS RECIPIENT_EMAILS
             POLLING_INTERVAL py_str guess_type smtp collection).
#[local] Abbreviation turns :=
  (while_true SMTP_SERVER EMAIL_PASSWORD EMAIL_ADDRESS RECIPIENT_EMAILS
              POLLING_INTERVAL py_str guess_type smtp collection).
#[local] Abbreviation monitor :=
  (monitor_new_submission SMTP_SERVER EMAIL_PASSWORD EMAIL_ADDRESS
     RECIPIENT_EMAILS POLLING_INTERVAL py_str guess_type smtp collection).

Lemma deliver_line_or_smtp (msg : Email) :
  events line_or_smtp
    (deliver SMTP_SERVER EMAIL_PASSWORD EMAIL_ADDRESS smtp msg).
Proof.
  unfold events, deliver, smtp_call, smtp_exit.
  destruct (smtp msg) as [|[] e|]; reflexivity.
Qed.

Lemma transform_and_send_line_or_smtp (form : Form) :
  events line_or_smtp (hand_over form).
Proof.
  unfold transform_and_send. apply events_bind.
  - unfold process_form.
    destruct (form !! "uploadedFile") as [v|]; [|done].
    destruct (truthy v); [|done].
    apply events_bind; [apply events_lift|]. intros file_data.
    apply events_bind; [apply events_lift|]. intros file_name.
    by destruct (_ && _).
  - intros [[ci fa] fn]. unfold send_email.
    apply events_try_except; [|by intros []].
    unfold send_email_try.
    destruct (truthy fa && truthy fn); [|apply deliver_line_or_smtp].
    apply events_bind; [apply events_lift|]. intros n.
    destruct (n >? MAX_FILE_SIZE).
    + apply events_bind; [done|]. intros _. apply deliver_line_or_smtp.
    + apply events_bind; [apply events_lift|]. intros mime_type.
      apply events_bind; [apply events_lift|]. intros ts.
      destruct (negb _); [done|].
      apply events_bind; [apply events_lift|]. intros _.
      apply deliver_line_or_smtp.
Qed.

Lemma poll_cycle_unfold (poll : nat) (st : LoopState) :
  cycle poll st =
    match collection poll (query_after (last_checked_id st)) with
    | Raise e => (st, ([Find (query_after (last_checked_id st))], Raise e))
    | Ok new_forms =>
        match each new_forms st with
        | (st', (tr, Ok _)) =>
            (st', (Find (query_after (last_checked_id st))
                     :: tr ++ (time_sleep POLLING_INTERVAL).1,
                   (time_sleep POLLING_INTERVAL).2))
        | (st', (tr, Raise e)) =>
            (st', (Find (query_after (last_checked_id st)) :: tr, Raise e))
        end
    end.
Proof.
  unfold poll_cycle, fetch_new_forms, query_after, mbind, Loop_bind,
    get_last_checked_id, liftM. cbn -[time_sleep].
  destruct (collection poll _) as [new_forms|e]; [|done]. cbn -[time_sleep].
  destruct (each new_forms st) as [st' [tr [[]|e]]]; [|done].
  by destruct (time_sleep POLLING_INTERVAL) as [tr1 []].
Qed.

Lemma iteration_unfold (poll : nat) (st : LoopState) :
  turn poll st =
    match cycle poll st with
    | (st', (tr, Ok _)) => (st', (tr, Ok tt))
    | (st', (tr, Raise e)) =>
        (st', (tr ++ [Log ERROR (MsgErrorIn "Error monitoring submission:" e)],
               Raise e))
    end.
Proof.
  unfold iteration, try_except_loop.
  by destruct (cycle poll st) as [st' [tr [[]|e]]].
Qed.

Lemma monitor_unfold (fuel : nat) :
  monitor fuel =
    match turns fuel 0 initial_state with
    | (st, (tr, Ok _)) => (Log INFO MsgMonitoring :: tr, st, StillRunning)
    | (st, (tr, Raise e)) => (Log INFO MsgMonitoring :: tr, st, Terminated e)
    end.
Proof.
  unfold monitor_new_submission, mbind, Loop_bind, liftM. cbn [logging emit].
  by destruct (turns fuel 0 initial_state) as [st [tr [[]|e]]].
Qed.

Lemma while_true_unfold (fuel poll : nat) (st : LoopState) :
  turns (S fuel) poll st =
    match turn poll st with
    | (st1, (tr, Ok _)) =>
        let r := turns fuel (S poll) st1 in (r.1, (tr ++ r.2.1, r.2.2))
    | (st1, (tr, Raise e)) => (st1, (tr, Raise e))
    end.
Proof.
  cbn [while_true]. unfold mbind, Loop_bind.
  destruct (turn poll st) as [st1 [tr [[]|e]]]; [|done].
  by destruct (turns fuel (S poll) st1) as [st2 [tr' r]].
Qed.

(** X14: the first query of a run has no lower bound, in every
    environment. *)
Theorem first_query_is_unbounded (fuel : nat) :
  ∃ rest, run_trace (monitor (S fuel))
          = Log INFO MsgMonitoring :: Find QAll :: rest.
Proof.
  rewrite monitor_unfold, while_true_unfold, iteration_unfold, poll_cycle_unfold.
  cbn [initial_state last_checked_id query_after truthy].
  destruct (collection 0%nat QAll) as [new_forms|e]; [|by eexists].
  destruct (each new_forms initial_state) as [st' [tr [[]|e]]]; [|by eexists].
  destruct (time_sleep POLLING_INTERVAL) as [tr1 [[]|e]]; cbn [fst snd];
    [|by eexists].
  destruct (turns fuel 1 st') as [st2 [tr' [[]|e]]]; by eexists.
Qed.

Lemma iteration_empty_batch (poll : nat) (st : LoopState) :
  collection poll (query_after (last_checked_id st)) = Ok [] →
  0 ≤ POLLING_INTERVAL ≤ SLEEP_MAX →
  turn poll st =
    (st, ([Find (query_after (last_checked_id st));
           Sleep POLLING_INTERVAL], Ok tt)).
Proof.
  intros Hempty Hsleep.
  by rewrite iteration_unfold, poll_cycle_unfold, Hempty, time_sleep_in_range.
Qed.

Lemma iteration_empty_batch_negative (poll : nat) (st : LoopState) :
  collection poll (query_after (last_checked_id st)) = Ok [] →
  - SLEEP_MAX ≤ POLLING_INTERVAL < 0 →
  turn poll st =
    (st, ([Find (query_after (last_checked_id st));
           Sleep POLLING_INTERVAL;
           Log ERROR (MsgErrorIn "Error monitoring submission:" ValueError)],
          Raise ValueError)).
Proof.
  intros Hempty Hsleep.
  by rewrite iteration_unfold, poll_cycle_unfold, Hempty, time_sleep_negative.
Qed.

(** X15: a poll that finds nothing changes neither the mark nor the dedup
    set.  With a polling interval that [time.sleep] takes (not negative,
    at most [SLEEP_MAX] seconds) the turn is the query, with the mark as
    its lower bound when the mark is a true value, and the sleep, and the
    turn after it asks the same query.  With a negative polling interval
    the sleep raises [ValueError], which the handler logs and raises
    again: the turn ends with it. *)
Theorem empty_batch_cycle (poll : nat) (st : LoopState)
    (Hempty : collection poll (query_after (last_checked_id st)) = Ok []) :
  (0 ≤ POLLING_INTERVAL ≤ SLEEP_MAX →
   turn poll st =
     (st, ([Find (if truthy (last_checked_id st)
                  then QGt (last_checked_id st) else QAll);
            Sleep POLLING_INTERVAL], Ok tt))
   ∧ ∃ rest, (turn (S poll) (turn poll st).1).2.1
             = Find (if truthy (last_checked_id st)
                     then QGt (last_checked_id st) else QAll) :: rest)
  ∧ (- SLEEP_MAX ≤ POLLING_INTERVAL < 0 →
     turn poll st =
       (st, ([Find (if truthy (last_checked_id st)
                    then QGt (last_checked_id st) else QAll);
              Sleep POLLING_INTERVAL;
              Log ERROR (MsgErrorIn "Error monitoring submission:" ValueError)],
             Raise ValueError))).
Proof.
  split; [|by apply iteration_empty_batch_negative].
  intros Hsleep.
  rewrite (iteration_empty_batch _ _ Hempty Hsleep). split; [done|].
  cbn [fst]. rewrite iteration_unfold, poll_cycle_unfold.
  fold (query_after (last_checked_id st)).
  destruct (collection (S poll) _) as [new_forms|e]; [|by eexists].
  destruct (each new_forms st) as [st' [tr [[]|e]]]; [|by eexists].
  destruct (time_sleep POLLING_INTERVAL) as [tr1 [[]|e]]; by eexists.
Qed.

(** X16: while the collection stays empty, and with a polling interval
    that [time.sleep] takes, the loop goes on: after any number of turns
    the function has not returned, nothing was sent, the mark and the
    dedup set are as at the start, and the trace is one unbounded query
    and one sleep per turn.  With a negative polling interval the loop
    ends in its first turn: the sleep raises [ValueError] and the function
    is left with it. *)
Theorem idle_run (fuel : nat)
    (Hempty : ∀ poll q, collection poll q = Ok []) :
  (0 ≤ POLLING_INTERVAL ≤ SLEEP_MAX →
   monitor fuel =
     (Log INFO MsgMonitoring
        :: concat (replicate fuel [Find QAll; Sleep POLLING_INTERVAL]),
      initial_state, StillRunning))
  ∧ (- SLEEP_MAX ≤ POLLING_INTERVAL < 0 →
     monitor (S fuel) =
       ([Log INFO MsgMonitoring; Find QAll; Sleep POLLING_INTERVAL;
         Log ERROR (MsgErrorIn "Error monitoring submission:" ValueError)],
        initial_state, Terminated ValueError)).
Proof.
  split; intros Hsleep; rewrite monitor_unfold.
  - assert (∀ poll, turns fuel poll initial_state =
      (initial_state,
       (concat (replicate fuel [Find QAll; Sleep POLLING_INTERVAL]), Ok tt)))
      as ->; [|done].
    induction fuel as [|fuel IH]; intros poll; [done|].
    rewrite while_true_unfold, iteration_empty_batch by done.
    by rewrite IH.
  - by rewrite while_true_unfold, iteration_empty_batch_negative.
Qed.

(** X17: the mark of one cycle is the lower bound of the next: after a
    cycle that ran to its end on a batch, the mark is the identifier of
    the last record of the batch, and the next query asks for identifiers
    greater than it; when that identifier is a false value (0, an empty
    string) the next query has no lower bound. *)
Theorem mark_is_next_lower_bound
    (poll : nat) (st : LoopState) (new_forms : list Form) (form : Form)
    (id : PyVal)
    (Hfound : collection poll (query_after (last_checked_id st)) = Ok new_forms)
    (Hlast : last new_forms = Some form) (Hid : form !! "_id" = Some id)
    (Hok : (cycle poll st).2.2 = Ok tt) :
  last_checked_id (cycle poll st).1 = id
  ∧ ∃ rest, (cycle (S poll) (cycle poll st).1).2.1
            = Find (if truthy id then QGt id else QAll) :: rest.
Proof.
  assert (last_checked_id (cycle poll st).1 = id) as Hmark.
  { revert Hok. rewrite poll_cycle_unfold, Hfound.
    pose proof (for_forms_mark_is_last_id SMTP_SERVER EMAIL_PASSWORD
      EMAIL_ADDRESS RECIPIENT_EMAILS py_str guess_type smtp
      new_forms st form id) as Hm.
    destruct (each new_forms st) as [st' [tr [[]|e]]]; [|done].
    intros _. by apply Hm. }
  split; [done|].
  rewrite (poll_cycle_unfold (S poll)), Hmark.
  unfold query_after.
  destruct (collection (S poll) _) as [forms'|e]; [|by eexists].
  destruct (each forms' _) as [st' [tr [[]|e]]]; by eexists.
Qed.

Lemma loop_body_seen_exact (form : Form) : seen_exact (body form).
Proof.
  intros st.
  destruct (form !! "name") as [name|] eqn:Hname;
    [|rewrite loop_body_no_name by done; cbn; by rewrite (left_id_L ∅ (∪))].
  destruct (form !! "_id") as [id|] eqn:Hid;
    [|rewrite loop_body_no_id by done; cbn; by rewrite (left_id_L ∅ (∪))].
  rewrite (loop_body_unfold _ _ _ _ _ _ _ _ _ name id) by done.
  destruct (bool_decide _) eqn:Hseen; cbn [fst snd processed_ids seen_ids].
  - cbn. by rewrite (left_id_L ∅ (∪)).
  - rewrite (processed_ids_quiet _ (transform_and_send_quiet _ _ _ _ _ _ _ form)).
    cbn. by rewrite (right_id_L ∅ (∪)).
Qed.

Lemma while_true_seen_exact (fuel poll : nat) : seen_exact (turns fuel poll).
Proof.
  revert poll. induction fuel as [|fuel IH]; intros poll;
    [by apply seen_exact_silent|].
  cbn [while_true]. apply seen_exact_bind; [|done].
  unfold iteration. apply seen_exact_try_except.
  - unfold poll_cycle.
    apply seen_exact_bind; [by apply seen_exact_silent|]. intros last.
    apply seen_exact_bind.
    { apply seen_exact_silent. intros st. split; [done|].
      unfold liftM, fetch_new_forms, lift. cbn [fst snd].
      by rewrite bind_emit. }
    intros new_forms.
    apply seen_exact_bind.
    2:{ intros _. apply seen_exact_silent. intros st. split; [done|].
        unfold liftM. cbn [fst snd]. by rewrite time_sleep_trace. }
    induction new_forms as [|form rest IHf]; [by apply seen_exact_silent|].
    cbn [for_forms].
    apply seen_exact_bind; [apply loop_body_seen_exact|done].
  - intros e. by apply seen_exact_silent.
Qed.

(** X18: at any point of the run the dedup set is exactly the set of the
    identifiers announced so far. *)
Theorem seen_ids_are_processed_ids (fuel : nat) :
  seen_ids (run_state (monitor fuel))
  = list_to_set (processed_ids (run_trace (monitor fuel))).
Proof.
  rewrite monitor_unfold.
  pose proof (while_true_seen_exact fuel 0 initial_state) as H.
  destruct (turns fuel 0 initial_state) as [st [tr [[]|e]]];
    cbn in *; by rewrite H, (right_id_L ∅ (∪)).
Qed.

(** X19: a batch of records that are all in the dedup set sends nothing
    and writes nothing; only the mark moves. *)
Theorem seen_batch_sends_nothing (new_forms : list Form) (st : LoopState)
    (Hseen : Forall (λ form, ∃ name id,
                form !! "name" = Some name ∧ form !! "_id" = Some id
                ∧ py_str id ∈ seen_ids st) new_forms) :
  (each new_forms st).2 = ([], Ok tt)
  ∧ seen_ids (each new_forms st).1 = seen_ids st.
Proof.
  revert st Hseen. induction new_forms as [|form rest IH]; intros st Hseen;
    [done|].
  apply Forall_cons in Hseen as [(name & id & Hn & Hi & Hs) Hrest].
  cbn [for_forms]. unfold mbind, Loop_bind.
  rewrite (loop_body_unfold _ _ _ _ _ _ _ _ _ name id) by done.
  rewrite bool_decide_eq_true_2 by done.
  specialize (IH (mkLoopState (seen_ids st) id) Hrest) as [IH1 IH2].
  destruct (each rest _) as [st2 [tr r]]. cbn in *. by simplify_eq.
Qed.

(** X20: the dedup set holds the text of the identifiers: of two records
    of a batch whose identifiers differ and print the same, the first is
    sent and the second is skipped, with the mark at the second. *)
Theorem dedup_is_on_string_form
    (first second : Form) (st : LoopState) (name1 id1 name2 id2 : PyVal)
    (Hn1 : first !! "name" = Some name1) (Hi1 : first !! "_id" = Some id1)
    (Hn2 : second !! "name" = Some name2) (Hi2 : second !! "_id" = Some id2)
    (Hsame : py_str id1 = py_str id2)
    (Hnew : py_str id1 ∉ seen_ids st)
    (Hsent : (hand_over first).2 = Ok tt) :
  each [first; second] st =
    (mkLoopState ({[py_str id1]} ∪ seen_ids st) id2,
     (Log INFO (MsgProcessing (py_str name1) (py_str id1))
        :: (hand_over first).1, Ok tt)).
Proof.
  cbn [for_forms]. unfold mbind, Loop_bind.
  rewrite (loop_body_unfold _ _ _ _ _ _ _ _ _ name1 id1) by done.
  rewrite bool_decide_eq_false_2 by done. rewrite Hsent.
  rewrite (loop_body_unfold _ _ _ _ _ _ _ _ _ name2 id2) by done.
  rewrite bool_decide_eq_true_2.
  - cbn. by rewrite !app_nil_r.
  - cbn. rewrite <- Hsame. apply elem_of_union_l. by apply elem_of_singleton.
Qed.


Lemma while_true_sleeps (fuel poll : nat) :
  loop_events (is_polling_sleep POLLING_INTERVAL) (turns fuel poll).
Proof.
  revert poll. induction fuel as [|fuel IH]; intros poll;
    [apply loop_events_ret|].
  cbn [while_true]. apply loop_events_bind; [|done].
  unfold iteration. apply loop_events_try_except.
  - unfold poll_cycle.
    apply loop_events_bind; [done|]. intros last.
    apply loop_events_bind; [done|]. intros new_forms.
    apply loop_events_bind.
    + induction new_forms as [|form rest IHf]; [done|].
      cbn [for_forms]. apply loop_events_bind; [|done].
      intros st.
      destruct (form !! "name") as [name|] eqn:Hname;
        [|by rewrite loop_body_no_name].
      destruct (form !! "_id") as [id|] eqn:Hid;
        [|by rewrite loop_body_no_id].
      rewrite (loop_body_unfold _ _ _ _ _ _ _ _ _ name id) by done.
      destruct (bool_decide _); [done|]. cbn [fst snd forallb].
      apply (forallb_weaken line_or_smtp); [by intros [[] []| | | |]|].
      apply transform_and_send_line_or_smtp.
    + intros _. apply loop_events_liftM, events_time_sleep.
      cbn. by rewrite Z.eqb_refl.
  - by intros e st.
Qed.

(** X21: the only sleep of the loop is the polling interval: in no
    environment does a run sleep any other number of seconds, and the
    sleep of 30 seconds of the handler is in a trace only as the polling
    interval, when that is 30. *)
Theorem sleeps_only_polling_interval (fuel : nat) :
  Forall (λ ev, is_polling_sleep POLLING_INTERVAL ev = true)
    (run_trace (monitor fuel))
  ∧ (Sleep 30 ∈ run_trace (monitor fuel) ↔
     POLLING_INTERVAL = 30 ∧ Sleep POLLING_INTERVAL ∈ run_trace (monitor fuel)).
Proof.
  assert (Forall (λ ev, is_polling_sleep POLLING_INTERVAL ev = true)
            (run_trace (monitor fuel))) as Hall.
  { rewrite monitor_trace. constructor; [done|].
    apply Forall_forall. intros ev Hev%list_elem_of_In.
    pose proof (while_true_sleeps fuel 0 initial_state) as Hall.
    rewrite forallb_forall in Hall. by apply Hall. }
  split; [done|]. split.
  - intros Hin. rewrite Forall_forall in Hall.
    pose proof (Hall _ Hin) as H30. cbn [is_polling_sleep] in H30.
    apply Z.eqb_eq in H30. split; [done|].
    by replace (Sleep POLLING_INTERVAL) with (Sleep 30) by (by rewrite H30).
  - by intros [-> Hin].
Qed.



(** X23: a record whose [uploadedFile] is a true value that is not a
    mapping ends the batch: the record is announced, its identifier is in
    the dedup set and is the mark, nothing is sent for it, the records
    after it are not looked at, and [AttributeError] leaves the [for]. *)
Theorem ill_typed_file_ends_cycle
    (form : Form) (rest : list Form) (st : LoopState) (name id v : PyVal)
    (Hname : form !! "name" = Some name) (Hid : form !! "_id" = Some id)
    (Hnew : py_str id ∉ seen_ids st)
    (Hfile : form !! "uploadedFile" = Some v) (Htrue : truthy v = true)
    (Hshape : ∀ d, v ≠ PyDict d) :
  each (form :: rest) st =
    (mkLoopState ({[py_str id]} ∪ seen_ids st) id,
     ([Log INFO (MsgProcessing (py_str name) (py_str id))],
      Raise AttributeError)).
Proof.
  assert (hand_over form = ([], Raise AttributeError)) as Hraise.
  { unfold transform_and_send, process_form. rewrite Hfile, Htrue.
    destruct v; try done. by destruct (Hshape d). }
  rewrite (for_forms_stops _ _ _ _ _ _ _ _ _ _ AttributeError);
    rewrite (loop_body_unfold _ _ _ _ _ _ _ _ _ name id) by done;
    rewrite bool_decide_eq_false_2 by done; by rewrite Hraise.
Qed.

(** X24: when every record of a batch has a name and an identifier and
    no transformation and no send raises, the batch runs to its end and
    the mark is the identifier of its last record. *)
Theorem cycle_without_exception_ends_at_last_id
    (new_forms : list Form) (st : LoopState) (form : Form) (id : PyVal)
    (Hall : Forall (λ form, is_Some (form !! "name") ∧ is_Some (form !! "_id")
                            ∧ (hand_over form).2 = Ok tt) new_forms)
    (Hlast : last new_forms = Some form) (Hid : form !! "_id" = Some id) :
  (each new_forms st).2.2 = Ok tt
  ∧ last_checked_id (each new_forms st).1 = id.
Proof.
  assert ((each new_forms st).2.2 = Ok tt) as Hok
    by by apply for_forms_completes.
  split; [done|]. by apply (for_forms_mark_is_last_id _ _ _ _ _ _ _ _ _ form).
Qed.

(** X25: a record that has been looked at once is not handled again in
    the same run, whatever its transformation and its send did: after the
    body the mark is its identifier and the text of its identifier is in
    the dedup set, and from any later state the body skips it. *)
Theorem record_is_handled_once
    (form : Form) (st : LoopState) (name id : PyVal)
    (Hname : form !! "name" = Some name) (Hid : form !! "_id" = Some id) :
  last_checked_id (body form st).1 = id
  ∧ py_str id ∈ seen_ids (body form st).1
  ∧ ∀ later, seen_ids (body form st).1 ⊆ seen_ids later →
      body form later = (mkLoopState (seen_ids later) id, ([], Ok tt)).
Proof.
  assert (py_str id ∈ seen_ids (body form st).1) as Hin.
  { rewrite (loop_body_unfold _ _ _ _ _ _ _ _ _ name id) by done.
    destruct (bool_decide _) eqn:Hs; cbn.
    - by apply bool_decide_eq_true in Hs.
    - apply elem_of_union_l. by apply elem_of_singleton. }
  split; [by apply (loop_body_advances_mark _ _ _ _ _ _ _ _ _ name)|].
  split; [done|]. intros later Hsub.
  rewrite (loop_body_unfold _ _ _ _ _ _ _ _ _ name id) by done.
  rewrite bool_decide_eq_true_2; [done|]. by apply Hsub.
Qed.

End LoopFurther.

(** ** The further properties, on examples *)

Lemma send_email_needs_payload_and_name_witness :
  Sample.mail Sample.accepting (customer_info_of Sample.ann)
              PyNone (PyStr "plan.pdf")
  = Sample.mail Sample.accepting (customer_info_of Sample.ann) PyNone PyNone.
Proof.
  exact (send_email_needs_payload_and_name
           "smtp.example.org" "secret" "forms@example.org"
           ["owner@example.org"] Sample.str_of Sample.guess Sample.accepting
           (customer_info_of Sample.ann) PyNone (PyStr "plan.pdf") eq_refl).
Defined.

Lemma send_email_sends_only_checked_messages_witness :
  let td := customer_info_of Sample.with_file in
  let fd := PyBytes [Byte.x25; Byte.x50] in
  let fn := PyStr "plan.pdf" in
  let plain := base_message "forms@example.org" ["owner@example.org"]
                 Sample.str_of td in
  let msg := attach plain (file_part "application" "pdf" fd fn) in
  Smtp (SendMessage msg) ∈ (Sample.mail Sample.accepting td fd fn).1
  ∧ (msg = plain
     ∨ ∃ n t main sub,
         truthy fd = true ∧ truthy fn = true
         ∧ py_len fd = Ok n ∧ n ≤ MAX_FILE_SIZE
         ∧ Sample.guess fn = Ok (Some t) ∧ t ∈ ALLOWED_MIME_TYPES
         ∧ split_slash t = Some (main, sub)
         ∧ msg = attach plain (file_part main sub fd fn)).
Proof.
  cbn zeta.
  assert (Smtp (SendMessage
            (attach (base_message "forms@example.org" ["owner@example.org"]
                       Sample.str_of (customer_info_of Sample.with_file))
               (file_part "application" "pdf"
                  (PyBytes [Byte.x25; Byte.x50]) (PyStr "plan.pdf"))))
          ∈ (Sample.mail Sample.accepting (customer_info_of Sample.with_file)
               (PyBytes [Byte.x25; Byte.x50]) (PyStr "plan.pdf")).1) as Hin.
  { vm_compute. do 3 apply list_elem_of_further. apply list_elem_of_here. }
  split; [exact Hin|].
  exact (send_email_sends_only_checked_messages
           "smtp.example.org" "secret" "forms@example.org"
           ["owner@example.org"] Sample.str_of Sample.guess Sample.accepting
           _ _ _ _ Hin).
Defined.

Lemma email_sent_line_means_accepted_witness :
  Log INFO MsgEmailSent
    ∈ trace (Sample.mail Sample.refusing_quit (customer_info_of Sample.ann)
               PyNone PyNone)
  ∧ outcome (Sample.mail Sample.refusing_quit (customer_info_of Sample.ann)
               PyNone PyNone) = Raise SMTPException
  ∧ (outcome (Sample.mail Sample.refusing_quit (customer_info_of Sample.ann)
                PyNone PyNone) = Ok tt
     ∨ outcome (Sample.mail Sample.refusing_quit (customer_info_of Sample.ann)
                  PyNone PyNone) = Raise SMTPException
       ∧ last (trace (Sample.mail Sample.refusing_quit
                        (customer_info_of Sample.ann) PyNone PyNone))
         = Some (Log ERROR (MsgErrorIn "SMTP error occurred" SMTPException))).
Proof.
  assert (Log INFO MsgEmailSent
          ∈ trace (Sample.mail Sample.refusing_quit
                     (customer_info_of Sample.ann) PyNone PyNone)) as Hin.
  { vm_compute. do 4 apply list_elem_of_further. apply list_elem_of_here. }
  split; [exact Hin|]. split; [reflexivity|].
  exact (proj1 (proj2 (email_sent_line_means_accepted
           "smtp.example.org" "secret" "forms@example.org"
           ["owner@example.org"] Sample.str_of Sample.guess
           Sample.refusing_quit
           (customer_info_of Sample.ann) PyNone PyNone)) Hin).
Defined.

Lemma send_email_closes_its_connection_witness :
  count_events is_close
    (Sample.mail (Sample.refusing "Ann") (customer_info_of Sample.ann)
       PyNone PyNone).1
  = count_events is_connect
      (Sample.mail (Sample.refusing "Ann") (customer_info_of Sample.ann)
         PyNone PyNone).1.
Proof.
  refine (send_email_closes_its_connection
            "smtp.example.org" "secret" "forms@example.org"
            ["owner@example.org"] Sample.str_of Sample.guess
            (Sample.refusing "Ann") (customer_info_of Sample.ann)
            PyNone PyNone _).
  intros msg e. unfold Sample.refusing. by destruct (String.prefix _ _).
Defined.

Lemma send_email_unsized_payload_witness :
  Sample.mail Sample.accepting (customer_info_of Sample.ann)
              (PyInt 5) (PyStr "plan.pdf")
  = ([Log ERROR (MsgErrorIn "Error sending email" TypeError)],
     Raise TypeError).
Proof.
  exact (send_email_unsized_payload
           "smtp.example.org" "secret" "forms@example.org"
           ["owner@example.org"] Sample.str_of Sample.guess Sample.accepting
           (customer_info_of Sample.ann) (PyInt 5) (PyStr "plan.pdf")
           TypeError eq_refl eq_refl eq_refl).
Defined.

Lemma process_form_valid_file_witness :
  process_form Sample.with_file =
    ([], Ok (customer_info_of Sample.with_file,
             PyBytes [Byte.x25; Byte.x50], PyStr "plan.pdf")).
Proof.
  exact (process_form_valid_file Sample.with_file
           {[ "data" := PyBytes [Byte.x25; Byte.x50];
              "filename" := PyStr "plan.pdf" ]}
           eq_refl eq_refl eq_refl).
Defined.

Lemma process_form_raises_on_ill_typed_file_witness :
  process_form Sample.with_path = ([], Raise AttributeError).
Proof.
  refine (proj2 (proj2 (process_form_raises_on_ill_typed_file
                          Sample.with_path)) _).
  exists (PyStr "/uploads/plan.pdf"). by repeat split.
Defined.

Lemma transform_and_send_message_witness :
  let msg := attach
               (base_message "forms@example.org" ["owner@example.org"]
                  Sample.str_of (customer_info_of Sample.with_file))
               (file_part "application" "pdf"
                  (PyBytes [Byte.x25; Byte.x50]) (PyStr "plan.pdf")) in
  Smtp (SendMessage msg)
    ∈ (Sample.hand_over Sample.accepting Sample.with_file).1
  ∧ msg_to msg = "owner@example.org"
  ∧ length (msg_parts msg) = 2%nat.
Proof.
  cbn zeta.
  assert (Smtp (SendMessage
            (attach (base_message "forms@example.org" ["owner@example.org"]
                       Sample.str_of (customer_info_of Sample.with_file))
               (file_part "application" "pdf"
                  (PyBytes [Byte.x25; Byte.x50]) (PyStr "plan.pdf"))))
          ∈ (Sample.hand_over Sample.accepting Sample.with_file).1) as Hin.
  { vm_compute. do 3 apply list_elem_of_further. apply list_elem_of_here. }
  split; [exact Hin|].
  split; [|reflexivity].
  exact (proj1 (proj2 (transform_and_send_message
           "smtp.example.org" "secret" "forms@example.org"
           ["owner@example.org"] Sample.str_of Sample.guess Sample.accepting
           Sample.with_file _ Hin))).
Defined.

Lemma empty_batch_cycle_witness :
  Sample.turn Sample.accepting Sample.empty_collection 4
    (mkLoopState {[ Sample.id1 ]} (PyObjectId Sample.id1))
  = (mkLoopState {[ Sample.id1 ]} (PyObjectId Sample.id1),
     ([Find (QGt (PyObjectId Sample.id1)); Sleep 30], Ok tt))
  ∧ iteration "smtp.example.org" "secret" "forms@example.org"
      ["owner@example.org"] (-5) Sample.str_of Sample.guess
      Sample.accepting Sample.empty_collection 4
      (mkLoopState {[ Sample.id1 ]} (PyObjectId Sample.id1))
  = (mkLoopState {[ Sample.id1 ]} (PyObjectId Sample.id1),
     ([Find (QGt (PyObjectId Sample.id1)); Sleep (-5);
       Log ERROR (MsgErrorIn "Error monitoring submission:" ValueError)],
      Raise ValueError)).
Proof.
  split.
  - refine (proj1 (proj1 (empty_batch_cycle
             "smtp.example.org" "secret" "forms@example.org"
             ["owner@example.org"] 30 Sample.str_of Sample.guess
             Sample.accepting Sample.empty_collection 4
             (mkLoopState {[ Sample.id1 ]} (PyObjectId Sample.id1)) eq_refl)
             _)).
    split; discriminate.
  - refine (proj2 (empty_batch_cycle
             "smtp.example.org" "secret" "forms@example.org"
             ["owner@example.org"] (-5) Sample.str_of Sample.guess
             Sample.accepting Sample.empty_collection 4
             (mkLoopState {[ Sample.id1 ]} (PyObjectId Sample.id1)) eq_refl)
             _).
    split; [discriminate|reflexivity].
Defined.

Lemma idle_run_witness :
  Sample.run Sample.accepting Sample.empty_collection 2
  = ([Log INFO MsgMonitoring; Find QAll; Sleep 30; Find QAll; Sleep 30],
     initial_state, StillRunning)
  ∧ monitor_new_submission "smtp.example.org" "secret" "forms@example.org"
      ["owner@example.org"] (-5) Sample.str_of Sample.guess
      Sample.accepting Sample.empty_collection 2
  = ([Log INFO MsgMonitoring; Find QAll; Sleep (-5);
      Log ERROR (MsgErrorIn "Error monitoring submission:" ValueError)],
     initial_state, Terminated ValueError).
Proof.
  split.
  - refine (proj1 (idle_run
             "smtp.example.org" "secret" "forms@example.org"
             ["owner@example.org"] 30 Sample.str_of Sample.guess
             Sample.accepting Sample.empty_collection 2
             (λ poll q, eq_refl)) _).
    split; discriminate.
  - refine (proj2 (idle_run
             "smtp.example.org" "secret" "forms@example.org"
             ["owner@example.org"] (-5) Sample.str_of Sample.guess
             Sample.accepting Sample.empty_collection 1
             (λ poll q, eq_refl)) _).
    split; [discriminate|reflexivity].
Defined.

Lemma mark_is_next_lower_bound_witness :
  last_checked_id
    (Sample.cycle Sample.accepting Sample.three_records 0 initial_state).1
  = PyObjectId Sample.id3.
Proof.
  exact (proj1 (mark_is_next_lower_bound
           "smtp.example.org" "secret" "forms@example.org"
           ["owner@example.org"] 30 Sample.str_of Sample.guess
           Sample.accepting Sample.three_records 0 initial_state
           [Sample.ann; Sample.bob; Sample.cyd] Sample.cyd
           (PyObjectId Sample.id3) eq_refl eq_refl eq_refl eq_refl)).
Defined.

Lemma seen_batch_sends_nothing_witness :
  (Sample.each Sample.accepting [Sample.ann; Sample.bob]
     (mkLoopState ({[ Sample.id1 ]} ∪ {[ Sample.id2 ]}) PyNone)).2
  = ([], Ok tt).
Proof.
  refine (proj1 (seen_batch_sends_nothing
           "smtp.example.org" "secret" "forms@example.org"
           ["owner@example.org"] Sample.str_of Sample.guess
           Sample.accepting [Sample.ann; Sample.bob]
           (mkLoopState ({[ Sample.id1 ]} ∪ {[ Sample.id2 ]}) PyNone) _)).
  constructor; [|constructor; [|constructor]].
  - exists (PyStr "Ann"), (PyObjectId Sample.id1).
    split; [reflexivity|]. split; [reflexivity|].
    apply elem_of_union_l. by apply elem_of_singleton.
  - exists (PyStr "Bob"), (PyObjectId Sample.id2).
    split; [reflexivity|]. split; [reflexivity|].
    apply elem_of_union_r. by apply elem_of_singleton.
Defined.

Lemma dedup_is_on_string_form_witness :
  PyInt 7 ≠ PyStr "7"
  ∧ Sample.str_of (PyInt 7) = Sample.str_of (PyStr "7")
  ∧ processed_ids
      (Sample.each Sample.accepting [Sample.seven; Sample.seven_again]
         initial_state).2.1 = ["7"]
  ∧ last_checked_id
      (Sample.each Sample.accepting [Sample.seven; Sample.seven_again]
         initial_state).1 = PyStr "7".
Proof.
  split; [discriminate|]. split; [reflexivity|]. unfold Sample.each.
  rewrite (dedup_is_on_string_form
           "smtp.example.org" "secret" "forms@example.org"
           ["owner@example.org"] Sample.str_of Sample.guess
           Sample.accepting Sample.seven Sample.seven_again initial_state
           (PyStr "Fay") (PyInt 7) (PyStr "Gus") (PyStr "7")
           eq_refl eq_refl eq_refl eq_refl eq_refl
           (not_elem_of_empty _) eq_refl).
  split; reflexivity.
Defined.

Lemma sleeps_only_polling_interval_witness :
  Sleep 30 ∈ run_trace (Sample.run Sample.accepting Sample.empty_collection 1)
  ∧ Forall (λ ev, is_polling_sleep 30 ev = true)
      (run_trace (Sample.run Sample.accepting Sample.three_records 2)).
Proof.
  split.
  - apply (proj2 (proj2 (sleeps_only_polling_interval
             "smtp.example.org" "secret" "forms@example.org"
             ["owner@example.org"] 30 Sample.str_of Sample.guess
             Sample.accepting Sample.empty_collection 1))).
    split; [reflexivity|].
    vm_compute. do 2 apply list_elem_of_further. apply list_elem_of_here.
  - exact (proj1 (sleeps_only_polling_interval
             "smtp.example.org" "secret" "forms@example.org"
             ["owner@example.org"] 30 Sample.str_of Sample.guess
             Sample.accepting Sample.three_records 2)).
Defined.


Lemma ill_typed_file_ends_cycle_witness :
  Sample.each Sample.accepting [Sample.with_path; Sample.bob] initial_state
  = (mkLoopState ({[ Sample.id1 ]} ∪ ∅) (PyObjectId Sample.id1),
     ([Log INFO (MsgProcessing "Eve" Sample.id1)], Raise AttributeError)).
Proof.
  refine (ill_typed_file_ends_cycle
           "smtp.example.org" "secret" "forms@example.org"
           ["owner@example.org"] Sample.str_of Sample.guess
           Sample.accepting Sample.with_path [Sample.bob] initial_state
           (PyStr "Eve") (PyObjectId Sample.id1) (PyStr "/uploads/plan.pdf")
           eq_refl eq_refl (not_elem_of_empty _) eq_refl eq_refl _).
  intros d. discriminate.
Defined.

Lemma cycle_without_exception_ends_at_last_id_witness :
  (Sample.each Sample.accepting [Sample.ann; Sample.bob; Sample.cyd]
     initial_state).2.2 = Ok tt
  ∧ last_checked_id
      (Sample.each Sample.accepting [Sample.ann; Sample.bob; Sample.cyd]
         initial_state).1 = PyObjectId Sample.id3.
Proof.
  refine (cycle_without_exception_ends_at_last_id
           "smtp.example.org" "secret" "forms@example.org"
           ["owner@example.org"] Sample.str_of Sample.guess
           Sample.accepting [Sample.ann; Sample.bob; Sample.cyd]
           initial_state Sample.cyd (PyObjectId Sample.id3) _
           eq_refl eq_refl).
  repeat constructor; by eexists.
Defined.

Lemma record_is_handled_once_witness :
  let after := (Sample.body (Sample.refusing "Ann") Sample.ann
                  initial_state).1 in
  (Sample.body (Sample.refusing "Ann") Sample.ann initial_state).2.2
    = Raise SMTPException
  ∧ Sample.body (Sample.refusing "Ann") Sample.ann after
    = (mkLoopState (seen_ids after) (PyObjectId Sample.id1), ([], Ok tt)).
Proof.
  cbn zeta. split; [reflexivity|].
  exact (proj2 (proj2 (record_is_handled_once
           "smtp.example.org" "secret" "forms@example.org"
           ["owner@example.org"] Sample.str_of Sample.guess
           (Sample.refusing "Ann") Sample.ann initial_state
           (PyStr "Ann") (PyObjectId Sample.id1) eq_refl eq_refl))
           _ (reflexivity _)).
Defined.
